(** * HubSpot extraction pipeline: a shallow embedding of
      [src/hubspot/controllers.js] and the properties of its
      formatting, deal-resolution and pagination paths. *)

From Stdlib Require Import ZArith String Ascii List Lia Bool DecimalString.
From stdpp Require Import base option list gmap strings fin_maps.

Local Open Scope string_scope.
Local Open Scope Z_scope.

(** ** JavaScript values and exceptions *)

Module Js.

(** The values the controllers handle: the primitives, and
    [VObject name] for a function or object that is no primitive, named
    by the member it is reached through. *)
Inductive jsval : Type :=
| VUndef
| VNull
| VStr (s : string)
| VNum (n : Z)
| VObject (name : string).

#[global] Instance jsval_eq_dec : EqDecision jsval.
Proof. solve_decision. Defined.

(** ToBoolean. *)
Definition truthy (v : jsval) : bool :=
  match v with
  | VUndef | VNull => false
  | VStr s => negb (String.eqb s "")
  | VNum n => negb (n =? 0)
  | VObject _ => true
  end.

(** [a || b]. *)
Definition js_or (a b : jsval) : jsval := if truthy a then a else b.

(** [v === "lit"]. *)
Definition strict_eq_str (v : jsval) (lit : string) : bool :=
  match v with
  | VStr s => String.eqb s lit
  | _ => false
  end.

(** [String(n)], and [`${n}`] in a template literal, for an integral
    number. *)
Definition String_ (n : Z) : string := NilZero.string_of_int (Z.to_int n).

(** What a [try] block can end with: a value, or a thrown exception. *)
Inductive error : Type :=
| TypeError (what : string)
| HttpError.

Inductive result (A : Type) : Type :=
| Ok (a : A)
| Throw (e : error).
Arguments Ok {A} a.
Arguments Throw {A} e.

#[global] Instance result_ret : MRet result := fun _ a => Ok a.
#[global] Instance result_fmap : FMap result := fun _ _ f m =>
  match m with
  | Ok a => Ok (f a)
  | Throw e => Throw e
  end.
#[global] Instance result_bind : MBind result := fun _ _ f m =>
  match m with
  | Ok a => f a
  | Throw e => Throw e
  end.

(** [xs.map(f)] with a callback that may throw: the first exception
    aborts the whole map. *)
Fixpoint map_throwing {A B} (f : A -> result B) (xs : list A) : result (list B) :=
  match xs with
  | [] => Ok []
  | x :: xs' =>
      y ← f x;
      ys ← map_throwing f xs';
      Ok (y :: ys)
  end.

(** [try { ... } catch (err) { console.log(...) }]: the exception is
    logged and the function falls through, returning [undefined],
    here [None]. *)
Definition catch_and_log {A} (r : result A) : option A :=
  match r with
  | Ok a => Some a
  | Throw _ => None
  end.

(** Member access on the result of a collaborator that returns
    [undefined] after a caught failure. *)
Definition deref {A} (what : string) (o : option A) : result A :=
  match o with
  | Some a => Ok a
  | None => Throw (TypeError what)
  end.

(** [await axios.get(url)], then [res.data]: a failed request rejects. *)
Definition axios_get {A} (response : option A) : result A :=
  match response with
  | Some data => Ok data
  | None => Throw HttpError
  end.

(** [xs.find(p)] with a callback that may throw. *)
Fixpoint find_throwing {A} (p : A -> result bool) (xs : list A) : result (option A) :=
  match xs with
  | [] => Ok None
  | x :: xs' =>
      b ← p x;
      if b : bool then Ok (Some x) else find_throwing p xs'
  end.

(** [xs.findIndex(p)]: index of the first match, [-1] when none. *)
Fixpoint findIndex {A} (p : A -> bool) (xs : list A) : Z :=
  match xs with
  | [] => -1
  | x :: xs' =>
      if p x then 0
      else let i := findIndex p xs' in
           if i =? -1 then -1 else i + 1
  end.

(** [xs.slice(0, i)] for [i >= 0]. *)
Definition slice0 {A} (xs : list A) (i : Z) : list A := take (Z.to_nat i) xs.

(** [s.padStart(n, pad)]. *)
Fixpoint pad_prefix (fuel : nat) (n : nat) (pad : string) : string :=
  match fuel with
  | O => ""
  | S fuel' =>
      if (n <=? String.length pad)%nat then substring 0 n pad
      else pad ++ pad_prefix fuel' (n - String.length pad) pad
  end.

Definition padStart (n : nat) (pad : string) (s : string) : string :=
  if (n <=? String.length s)%nat then s
  else if String.eqb pad "" then s
  else pad_prefix (n - String.length s) (n - String.length s) pad ++ s.

End Js.
Import Js.

(** ** Data model *)

(** [{value: ...}], an entry of [contact.properties]. *)
Record PropertyValue : Type := { value : jsval }.

(** An entry of [contact["form-submissions"]]. *)
Record FormSubmission : Type := { page_url : jsval }.

(** An element of [contactsData.contacts]. *)
Record ContactSummary : Type := {
  summary_vid : Z;
  summary_addedAt : Z
}.

(** A value of the batch endpoint's response; it carries no [addedAt].
    [raw_form_submissions = None] stands for a missing
    ["form-submissions"] member. *)
Record RawDetail : Type := {
  raw_vid : Z;
  raw_properties : gmap string PropertyValue;
  raw_form_submissions : option (list FormSubmission)
}.

(** [{...dc, addedAt}], what [formatContact] and the stop tests see. *)
Record ContactDetail : Type := {
  vid : Z;
  properties : gmap string PropertyValue;
  form_submissions : option (list FormSubmission);
  addedAt : Z
}.

(** The broken-down local time of a [Date]. *)
Record DateFields : Type := {
  getDate : Z;
  getMonth : Z;
  getFullYear : Z;
  getHours : Z;
  getMinutes : Z
}.

(** A flat JavaScript object with string keys. *)
Abbreviation obj := (gmap string jsval).

(** [o.k]: [undefined] when the key is missing. *)
Definition get (o : gmap string string) (k : string) : jsval :=
  match o !! k with
  | Some s => VStr s
  | None => VUndef
  end.

(** The members an object literal inherits from [Object.prototype]. *)
Definition Object_prototype : list string :=
  [ "constructor"; "__defineGetter__"; "__defineSetter__"; "hasOwnProperty";
    "__lookupGetter__"; "__lookupSetter__"; "isPrototypeOf";
    "propertyIsEnumerable"; "toString"; "valueOf"; "__proto__";
    "toLocaleString" ].

(** [o[k]] for a computed key [k] on an object literal: the own key
    when there is one, else the inherited member of that name, else
    [undefined]. *)
Definition get_computed (o : gmap string string) (k : string) : jsval :=
  match o !! k with
  | Some s => VStr s
  | None => if existsb (String.eqb k) Object_prototype then VObject k else VUndef
  end.

(** [{...a, ...b}]: the keys of [b] win. *)
Definition spread {V} (a b : gmap string V) : gmap string V := b ∪ a.

(** ** Formatting one contact *)

Section Formatting.

(** [helpers.getURLParams] and [helpers.getHostName] live in
    [src/helpers], [new Date(t)] in the platform. *)
Variable getURLParams : jsval -> gmap string string.
Variable getHostName : jsval -> string.
Variable newDate : Z -> option DateFields.

Definition withZeros (num : option Z) : string :=
  padStart 2 "0" (match num with Some n => String_ n | None => "NaN" end).

Definition formattedDate (date : Z) : string :=
  let d := newDate date in
  withZeros (getDate <$> d) ++ "/" ++
  withZeros ((fun f => getMonth f + 1) <$> d) ++ "/" ++
  withZeros (getFullYear <$> d) ++ " - " ++
  withZeros (getHours <$> d) ++ ":" ++
  withZeros (getMinutes <$> d).

(** The own keys of the table. *)
Definition INSTITUTIONS : gmap string string :=
  <["cursopos.com" := "FAT"]>
  (<["posead.institutosingularidades.edu.br" := "Singularidades"]>
  (<["gestaopublica.fecap.br" := "Fecap"]>
  (<["dmi.espm.br" := "ESPM"]>
  (<["br.digitalmarketinginstitute.com" := "DMI"]> ∅)))).

(** [p && p.value]. *)
Definition and_value (p : option PropertyValue) : jsval :=
  match p with
  | Some pv => value pv
  | None => VUndef
  end.

(** [contact["form-submissions"][0] && contact["form-submissions"][0]["page-url"]]. *)
Definition form_submission_page (fs : list FormSubmission) : jsval :=
  match fs !! 0%nat with
  | Some f => page_url f
  | None => VUndef
  end.

Definition landingPageUrls (props : gmap string PropertyValue)
    (fs : list FormSubmission) : list jsval :=
  [ and_value (props !! "hs_analytics_first_url");
    and_value (props !! "hs_analytics_last_url");
    and_value (props !! "hs_analytics_first_referrer");
    and_value (props !! "hs_analytics_last_referrer");
    form_submission_page fs ].

(** The [forEach] that accumulates [queryParams]. *)
Definition queryParams (urls : list jsval) : gmap string string :=
  foldl (fun q lp => spread q (getURLParams lp)) ∅ urls.

(** The condition of the outer [if]. *)
Definition any_candidate (props : gmap string PropertyValue)
    (fs : list FormSubmission) : bool :=
  bool_decide (is_Some (props !! "hs_analytics_first_url")) ||
  bool_decide (is_Some (props !! "hs_analytics_last_url")) ||
  bool_decide (is_Some (props !! "hs_analytics_first_referrer")) ||
  bool_decide (is_Some (props !! "hs_analytics_last_referrer")) ||
  truthy (form_submission_page fs).

Definition institution_of (props : gmap string PropertyValue) : jsval :=
  match props !! "hs_analytics_last_url" with
  | Some pv => get_computed INSTITUTIONS (getHostName (value pv))
  | None => VUndef
  end.

(** The local [source] after the Instagram exception. *)
Definition final_source (props : gmap string PropertyValue)
    (q : gmap string string) : jsval :=
  let source := get q "utm_source" in
  if strict_eq_str source "facebook" &&
     match props !! "hs_analytics_first_referrer" with
     | Some pv => strict_eq_str (value pv) "http://instagram.com/"
     | None => false
     end
  then VStr "instagram"
  else source.

(** The body of [formatContact]; it returns the locals [source] and
    [formattedContact] as they stand at the [return]. *)
Definition formatContact_locals (contact : ContactDetail)
    : result (option jsval * obj) :=
  let props := properties contact in
  hs_analytics_source ← deref "properties.hs_analytics_source" (props !! "hs_analytics_source");
  let formattedContact : obj :=
    <["addedAt" := VStr (formattedDate (addedAt contact))]>
    (<["hs_url" := VStr ("https://app.hubspot.com/contacts/6331207/contact/"
                         ++ String_ (vid contact))]>
    (<["analytics_source" := value hs_analytics_source]>
    (<["id" := VNum (vid contact)]> ∅))) in
  fs ← deref "form-submissions" (form_submissions contact);
  if any_candidate props fs then
    let q := queryParams (landingPageUrls props fs) in
    let source := get q "utm_source" in
    let formattedContact : obj :=
      <["utm_content" := get q "utm_content"]>
      (<["hsa_grp" := js_or (get q "hsa_grp") (get q "ad_group")]>
      (<["utm_campaign" := get q "utm_campaign"]>
      (<["utm_source" := source]>
      (<["institution" := institution_of props]> formattedContact)))) in
    let source := final_source props q in
    let formattedContact : obj :=
      if strict_eq_str source "linkedin" then
        match props !! "first_conversion_event_name" with
        | Some pv => <["ad" := value pv]> formattedContact
        | None => formattedContact
        end
      else formattedContact in
    Ok (Some source, formattedContact)
  else Ok (None, formattedContact).

Definition formatContact (contact : ContactDetail) : result obj :=
  snd <$> formatContact_locals contact.

End Formatting.

(** ** Deals of a contact *)

Record StageDetail : Type := {
  stageId : string;
  stage_label : string
}.

Record PipelineDetail : Type := {
  pipelineId : string;
  stages : list StageDetail
}.

(** What [getDeal] resolves to. *)
Record RawDeal : Type := {
  dealId : Z;
  deal_properties : gmap string PropertyValue
}.

(** A deal after [deal.pipeline] and [deal.stage] were assigned;
    [stage = None] is a [deal.stage] holding [undefined]. *)
Record Deal : Type := {
  deal : RawDeal;
  pipeline : PipelineDetail;
  stage : option StageDetail
}.

Section Deals.

(** The three HubSpot endpoints: [None] is a rejected request. The
    first two stand for the [results] member of the response. *)
Variable associations_endpoint : Z -> option (list Z).
Variable pipelines_endpoint : option (list PipelineDetail).
Variable deal_endpoint : Z -> option RawDeal.

Definition getDealIdsFromContact (contactId : Z) : option (list Z) :=
  catch_and_log (axios_get (associations_endpoint contactId)).

Definition getDeal (dealId : Z) : option RawDeal :=
  catch_and_log (axios_get (deal_endpoint dealId)).

Definition getAllPipelines : option (list PipelineDetail) :=
  catch_and_log (axios_get pipelines_endpoint).

(** [x.id === deal.properties.name.value] as a [find] callback. *)
Definition matches_property (d : RawDeal) (name : string) (id : string) : result bool :=
  pv ← deref name (deal_properties d !! name);
  Ok (strict_eq_str (value pv) id).

(** One turn of the [for ... of] loop, up to the [push]. *)
Definition resolveDeal (pipelines : list PipelineDetail) (dealId : Z) : result Deal :=
  d ← deref "deal" (getDeal dealId);
  found ← find_throwing (fun p => matches_property d "pipeline" (pipelineId p)) pipelines;
  p ← deref "deal.pipeline" found;
  s ← find_throwing (fun s => matches_property d "dealstage" (stageId s)) (stages p);
  Ok {| deal := d; pipeline := p; stage := s |}.

Definition getDealsFromContact (contactId : Z) : option (list Deal) :=
  catch_and_log (
    dealIds ← deref "results" (getDealIdsFromContact contactId);
    pipelines ← deref "results" getAllPipelines;
    map_throwing (resolveDeal pipelines) dealIds).

End Deals.

(** ** The pagination loop *)

(** The response of the recent-contacts listing. *)
Record ContactsData : Type := {
  contacts : list ContactSummary;
  has_more : bool;
  vid_offset : Z;
  time_offset : Z
}.

(** The [sheet] argument. *)
Record Sheet : Type := {
  sheetId : string;
  range : option string
}.

(** One call of [sheets.appendToSheet]. *)
Record SheetAppend (Row : Type) : Type := {
  append_sheetId : string;
  append_range : string;
  append_data : list Row
}.
Arguments append_sheetId {Row} _.
Arguments append_range {Row} _.
Arguments append_data {Row} _.

Definition insertAddedDateOnDetailedContacts (contacts : list ContactSummary)
    (detailedContacts : list RawDetail) : result (list ContactDetail) :=
  map_throwing (fun dc =>
    contact ← deref "contact" (find (fun c => summary_vid c =? raw_vid dc) contacts);
    Ok {| vid := raw_vid dc;
          properties := raw_properties dc;
          form_submissions := raw_form_submissions dc;
          addedAt := summary_addedAt contact |}) detailedContacts.

(** A [null] offset or stop, and its numeric reading in [<=]. *)
Definition null_to_number (n : option Z) : Z := default 0 n.

(** [c => c.addedAt <= timeStop]. *)
Definition time_stops (timeStop : option Z) (c : ContactDetail) : bool :=
  addedAt c <=? null_to_number timeStop.

(** [c => c.vid === vidStop]. *)
Definition vid_stops (vidStop : option Z) (c : ContactDetail) : bool :=
  match vidStop with
  | Some v => vid c =? v
  | None => false
  end.

Definition timeStopIndex (timeStop : option Z) (contactsDetailedInfo : list ContactDetail) : Z :=
  findIndex (time_stops timeStop) contactsDetailedInfo.

Definition vidStopIndex (vidStop : option Z) (contactsDetailedInfo : list ContactDetail) : Z :=
  findIndex (vid_stops vidStop) contactsDetailedInfo.

(** The two assignments to [newContacts], in the order of the source. *)
Definition newContacts (vidStop timeStop : option Z)
    (contactsDetailedInfo : list ContactDetail) : list ContactDetail :=
  let newContacts :=
    if negb (timeStopIndex timeStop contactsDetailedInfo =? -1)
    then slice0 contactsDetailedInfo (timeStopIndex timeStop contactsDetailedInfo)
    else contactsDetailedInfo in
  let newContacts :=
    if negb (vidStopIndex vidStop contactsDetailedInfo =? -1)
    then slice0 contactsDetailedInfo (vidStopIndex vidStop contactsDetailedInfo)
    else contactsDetailedInfo in
  newContacts.

(** The condition of the [if] that guards the recursive call. *)
Definition keep_looping (contactsData : ContactsData) (vidStop timeStop : option Z)
    (contactsDetailedInfo : list ContactDetail) : bool :=
  has_more contactsData &&
  (vidStopIndex vidStop contactsDetailedInfo =? -1) &&
  (timeStopIndex timeStop contactsDetailedInfo =? -1).

Section Pagination.

Variable getURLParams : jsval -> gmap string string.
Variable getHostName : jsval -> string.
Variable newDate : Z -> option DateFields.

(** The two HubSpot endpoints, keyed by what the request URL carries,
    and the row formatter of [src/google/sheets]. *)
Variable recent_endpoint : option Z -> option Z -> option ContactsData.
Variable batch_endpoint : list Z -> option (list RawDetail).
Variable Row : Type.
Variable formatContactForGoogleSheet : obj -> Row.

(** [offset ? `&name=${offset}` : ""]: a [null] or zero offset is left
    out of the URL. *)
Definition pagination (offset : option Z) : option Z :=
  match offset with
  | Some n => if n =? 0 then None else Some n
  | None => None
  end.

Definition getContacts (vidOffset timeOffset : option Z) : option ContactsData :=
  catch_and_log (axios_get (recent_endpoint (pagination vidOffset) (pagination timeOffset))).

Definition getContactsDetailedInfo (contacts : list ContactSummary)
    : option (list ContactDetail) :=
  catch_and_log (
    detailedContacts ← axios_get (batch_endpoint (map summary_vid contacts));
    insertAddedDateOnDetailedContacts contacts detailedContacts).

Definition formatAndAppendToSheet (data : list obj) (sheetId : string)
    (range : option string) : SheetAppend Row :=
  {| append_sheetId := sheetId;
     append_range := default "Página1" range;
     append_data := map formatContactForGoogleSheet data |}.

(** What one pass computes before the sheet is touched. *)
Record Page : Type := {
  page_data : ContactsData;
  page_detailed : list ContactDetail;
  page_new : list ContactDetail;
  page_formatted : list obj
}.

Definition fetchPage (vidOffset timeOffset vidStop timeStop : option Z) : result Page :=
  contactsData ← deref "contactsData" (getContacts vidOffset timeOffset);
  contactsDetailedInfo ← deref "contactsDetailedInfo"
                           (getContactsDetailedInfo (contacts contactsData));
  let new := newContacts vidStop timeStop contactsDetailedInfo in
  formattedContacts ← map_throwing (formatContact getURLParams getHostName newDate) new;
  Ok {| page_data := contactsData;
        page_detailed := contactsDetailedInfo;
        page_new := new;
        page_formatted := formattedContacts |}.

(** [loopContacts]; the sheet is the state threaded through the calls.
    The outer [None] is an exhausted recursion budget, the inner one
    the [undefined] the function returns after its [catch]. *)
Fixpoint loopContacts (fuel : nat) (vidOffset timeOffset vidStop timeStop : option Z)
    (sheet : Sheet) (acc : list ContactDetail) (log : list (SheetAppend Row))
    : option (list (SheetAppend Row) * option (list ContactDetail)) :=
  match fuel with
  | O => None
  | S fuel' =>
      match fetchPage vidOffset timeOffset vidStop timeStop with
      | Throw _ => Some (log, None)
      | Ok pg =>
          let log := (log ++ [formatAndAppendToSheet (page_formatted pg)
                                (sheetId sheet) (range sheet)])%list in
          let acc := (acc ++ page_new pg)%list in
          if keep_looping (page_data pg) vidStop timeStop (page_detailed pg)
          then loopContacts fuel' (Some (vid_offset (page_data pg)))
                 (Some (time_offset (page_data pg))) vidStop timeStop sheet acc log
          else Some (log, Some acc)
      end
  end.

End Pagination.

(** ** Reference collaborators

    Concrete stand-ins for the collaborators that are parameters
    above; the examples run the controllers against them. *)

Module Reference.

(** The text before the first [sep] and, if [sep] occurs, the text after it. *)
Fixpoint cut (sep : ascii) (s : string) : string * option string :=
  match s with
  | EmptyString => ("", None)
  | String c s' =>
      if Ascii.eqb c sep then ("", Some s')
      else let '(before, after) := cut sep s' in (String c before, after)
  end.

Fixpoint split (sep : ascii) (s : string) : list string :=
  match s with
  | EmptyString => [""]
  | String c s' =>
      if Ascii.eqb c sep then "" :: split sep s'
      else match split sep s' with
           | [] => [String c ""]
           | w :: ws => String c w :: ws
           end
  end.

(** The part of an absolute http(s) URL after its scheme. *)
Definition after_scheme (url : string) : option string :=
  if String.prefix "https://" url then Some (substring 8 (String.length url - 8) url)
  else if String.prefix "http://" url then Some (substring 7 (String.length url - 7) url)
  else None.

Definition add_pair (m : gmap string string) (pair : string) : gmap string string :=
  let '(k, v) := cut "=" pair in
  if String.eqb k "" then m else <[k := default "" v]> m.

(** Modelled from the spec: [helpers.getURLParams] is not under src/.
    It never throws and yields the empty mapping on an absent,
    relative or unparseable URL. *)
Definition getURLParams (url : jsval) : gmap string string :=
  match url with
  | VStr s =>
      match after_scheme s with
      | Some rest =>
          match snd (cut "?" rest) with
          | Some query => foldl add_pair ∅ (split "&" (fst (cut "#" query)))
          | None => ∅
          end
      | None => ∅
      end
  | _ => ∅
  end.

(** Modelled from the spec: [helpers.getHostName] is not under src/.
    It yields the host of the URL. *)
Definition getHostName (url : jsval) : string :=
  match url with
  | VStr s =>
      match after_scheme s with
      | Some rest => fst (cut ":" (fst (cut "#" (fst (cut "?" (fst (cut "/" rest)))))))
      | None => ""
      end
  | _ => ""
  end.

(** Modelled from the spec: the platform's [Date], for a host whose
    local time zone is UTC; the time value is in milliseconds and a
    [Date] beyond 8.64e15 ms is invalid. *)
Definition newDate (t : Z) : option DateFields :=
  if (Z.abs t <=? 8640000000000000) then
    let days := t / 86400000 in
    let ms := t mod 86400000 in
    let z := days + 719468 in
    let era := z / 146097 in
    let doe := z - era * 146097 in
    let yoe := (doe - doe / 1460 + doe / 36524 - doe / 146096) / 365 in
    let doy := doe - (365 * yoe + yoe / 4 - yoe / 100) in
    let mp := (5 * doy + 2) / 153 in
    let d := doy - (153 * mp + 2) / 5 + 1 in
    let m := if mp <? 10 then mp + 3 else mp - 9 in
    let y := yoe + era * 400 + (if m <=? 2 then 1 else 0) in
    Some {| getDate := d;
            getMonth := m - 1;
            getFullYear := y;
            getHours := ms / 3600000;
            getMinutes := (ms mod 3600000) / 60000 |}
  else None.

End Reference.

(** ** The properties, in the words of the specification *)

(** The fixed hostname-to-label table of the specification, by exact
    comparison: every hostname outside it is [undefined]. *)
Definition institution_spec (host : string) : jsval :=
  if String.eqb host "br.digitalmarketinginstitute.com" then VStr "DMI"
  else if String.eqb host "dmi.espm.br" then VStr "ESPM"
  else if String.eqb host "gestaopublica.fecap.br" then VStr "Fecap"
  else if String.eqb host "posead.institutosingularidades.edu.br" then VStr "Singularidades"
  else if String.eqb host "cursopos.com" then VStr "FAT"
  else VUndef.

(** The lookup as the object literal performs it: the five labels, an
    inherited member for a hostname that names one, [undefined] for
    every other hostname. *)
Definition institution_lookup (host : string) : jsval :=
  if String.eqb host "br.digitalmarketinginstitute.com" then VStr "DMI"
  else if String.eqb host "dmi.espm.br" then VStr "ESPM"
  else if String.eqb host "gestaopublica.fecap.br" then VStr "Fecap"
  else if String.eqb host "posead.institutosingularidades.edu.br" then VStr "Singularidades"
  else if String.eqb host "cursopos.com" then VStr "FAT"
  else if existsb (String.eqb host) Object_prototype then VObject host
  else VUndef.

(** A candidate URL is absent when it is [null] or [undefined]. *)
Definition present (url : jsval) : bool :=
  match url with
  | VUndef | VNull => false
  | _ => true
  end.




(** [DD/MM/YYYY - HH:mm], digit by digit. *)
Definition digit (n : Z) : ascii := ascii_of_nat (48 + Z.to_nat n).

Definition two_digits (n : Z) : string :=
  String (digit (n / 10)) (String (digit (n mod 10)) "").

Definition four_digits (n : Z) : string :=
  String (digit (n / 1000)) (String (digit (n / 100 mod 10)) (two_digits (n mod 100))).

Definition render_date (f : DateFields) : string :=
  two_digits (getDate f) ++ "/" ++ two_digits (getMonth f + 1) ++ "/" ++
  four_digits (getFullYear f) ++ " - " ++
  two_digits (getHours f) ++ ":" ++ two_digits (getMinutes f).

(** A calendar date with a four-digit year. *)
Definition calendar_fields (f : DateFields) : Prop :=
  1 <= getDate f <= 31 /\ 0 <= getMonth f <= 11 /\
  1000 <= getFullYear f <= 9999 /\
  0 <= getHours f <= 23 /\ 0 <= getMinutes f <= 59.

(** The catalog joins of [getDealsFromContact]. *)
Definition lookup_pipeline (catalog : list PipelineDetail) (d : RawDeal)
    : option PipelineDetail :=
  pv ← deal_properties d !! "pipeline";
  find (fun p => strict_eq_str (value pv) (pipelineId p)) catalog.

Definition lookup_stage (p : PipelineDetail) (d : RawDeal) : option StageDetail :=
  pv ← deal_properties d !! "dealstage";
  find (fun s => strict_eq_str (value pv) (stageId s)) (stages p).

(** A stop condition matched in a page of enriched details. *)
Definition vid_stop_matched (vidStop : option Z) (details : list ContactDetail) : Prop :=
  exists c, c ∈ details /\ vidStop = Some (vid c).

(** The time test as [<=] performs it: a [null] [timeStop] is read as
    the number 0. *)
Definition time_stop_matched (timeStop : option Z) (details : list ContactDetail) : Prop :=
  exists c, c ∈ details /\ addedAt c <= null_to_number timeStop.

(** The time test of the specification: evaluated only when a
    [timeStop] is set. *)
Definition time_stop_set_and_matched (timeStop : option Z)
    (details : list ContactDetail) : Prop :=
  exists t c, timeStop = Some t /\ c ∈ details /\ addedAt c <= t.

(** The continuation condition of the specification. *)
Definition continues_as_specified (vidStop timeStop : option Z) (pg : Page) : Prop :=
  has_more (page_data pg) = true /\
  ~ vid_stop_matched vidStop (page_detailed pg) /\
  ~ time_stop_set_and_matched timeStop (page_detailed pg).

(** The page reports more data and neither stop condition matched in it. *)
Definition continues (vidStop timeStop : option Z) (pg : Page) : Prop :=
  has_more (page_data pg) = true /\
  ~ vid_stop_matched vidStop (page_detailed pg) /\
  ~ time_stop_matched timeStop (page_detailed pg).

(** [visits fetch vidStop timeStop vidOffset timeOffset pgs]: starting
    from the cursor, the pages [pgs] are fetched one after the other,
    each from the cursor its predecessor returned; every page but the
    last continues, the last one does not. *)
Inductive visits (fetch : option Z -> option Z -> result Page)
    (vidStop timeStop : option Z) : option Z -> option Z -> list Page -> Prop :=
| visits_halt vidOffset timeOffset pg :
    fetch vidOffset timeOffset = Ok pg ->
    ~ continues vidStop timeStop pg ->
    visits fetch vidStop timeStop vidOffset timeOffset [pg]
| visits_next vidOffset timeOffset pg pgs :
    fetch vidOffset timeOffset = Ok pg ->
    continues vidStop timeStop pg ->
    visits fetch vidStop timeStop
      (Some (vid_offset (page_data pg))) (Some (time_offset (page_data pg))) pgs ->
    visits fetch vidStop timeStop vidOffset timeOffset (pg :: pgs).

(** The three-field record of the short circuit: [id], [hs_url], [addedAt]. *)
Definition minimal_record (newDate : Z -> option DateFields) (c : ContactDetail) : obj :=
  list_to_map
    [ ("id", VNum (vid c));
      ("hs_url", VStr ("https://app.hubspot.com/contacts/6331207/contact/" ++ String_ (vid c)));
      ("addedAt", VStr (formattedDate newDate (addedAt c))) ].

(** ** Sample contacts, deals and pages *)

Module Examples.

Definition props (l : list (string * jsval)) : gmap string PropertyValue :=
  list_to_map (map (fun kv => (fst kv, {| value := snd kv |})) l).

(** No analytics URL, no form submission, no conversion event. *)
Definition bare_contact : ContactDetail :=
  {| vid := 42;
     properties := props [("hs_analytics_source", VStr "DIRECT_TRAFFIC")];
     form_submissions := Some [];
     addedAt := 1583069400000 |}.

Definition instagram_contact : ContactDetail :=
  {| vid := 43;
     properties := props
       [ ("hs_analytics_source", VStr "PAID_SOCIAL");
         ("hs_analytics_first_url", VStr "https://cursopos.com/lp?utm_source=facebook&utm_campaign=x");
         ("hs_analytics_first_referrer", VStr "http://instagram.com/") ];
     form_submissions := Some [];
     addedAt := 1583069400000 |}.

Definition espm_contact : ContactDetail :=
  {| vid := 44;
     properties := props
       [ ("hs_analytics_source", VStr "PAID_SEARCH");
         ("hs_analytics_first_url", VStr "https://cursopos.com/?utm_source=a&ad_group=g1");
         ("hs_analytics_last_url", VStr "https://dmi.espm.br/lp?utm_source=b") ];
     form_submissions := Some [ {| page_url := VStr "https://gestaopublica.fecap.br/form" |} ];
     addedAt := 1583069400000 |}.

Definition linkedin_contact : ContactDetail :=
  {| vid := 45;
     properties := props
       [ ("hs_analytics_source", VStr "PAID_SOCIAL");
         ("hs_analytics_last_url", VStr "https://dmi.espm.br/lp?utm_source=linkedin");
         ("first_conversion_event_name", VStr "Inscricao MBA") ];
     form_submissions := Some [];
     addedAt := 1583069400000 |}.

Definition linkedin_contact_no_event : ContactDetail :=
  {| vid := 46;
     properties := props
       [ ("hs_analytics_source", VStr "PAID_SOCIAL");
         ("hs_analytics_last_url", VStr "https://dmi.espm.br/lp?utm_source=linkedin") ];
     form_submissions := Some [];
     addedAt := 1583069400000 |}.

(** A listing of two pages. *)
Definition page1 : ContactsData :=
  {| contacts := [ {| summary_vid := 101; summary_addedAt := 1583069400000 |};
                   {| summary_vid := 102; summary_addedAt := 1583065800000 |} ];
     has_more := true;
     vid_offset := 102;
     time_offset := 1583065800000 |}.

Definition page2 : ContactsData :=
  {| contacts := [ {| summary_vid := 103; summary_addedAt := 1583062200000 |};
                   {| summary_vid := 104; summary_addedAt := 1583058600000 |};
                   {| summary_vid := 105; summary_addedAt := 1583055000000 |} ];
     has_more := false;
     vid_offset := 105;
     time_offset := 1583055000000 |}.

Definition recent_endpoint (vidOffset timeOffset : option Z) : option ContactsData :=
  match vidOffset, timeOffset with
  | None, None => Some page1
  | Some 102, Some 1583065800000 => Some page2
  | _, _ => None
  end.

Definition raw_detail (v : Z) : RawDetail :=
  {| raw_vid := v;
     raw_properties := props
       [ ("hs_analytics_source", VStr "PAID_SEARCH");
         ("hs_analytics_last_url", VStr "https://dmi.espm.br/lp?utm_source=google") ];
     raw_form_submissions := Some [] |}.

Definition batch_endpoint (vids : list Z) : option (list RawDetail) :=
  Some (map raw_detail vids).

Definition detail (v t : Z) : ContactDetail :=
  {| vid := v;
     properties := raw_properties (raw_detail v);
     form_submissions := Some [];
     addedAt := t |}.

Definition sheet : Sheet := {| sheetId := "sheet-1"; range := None |}.

(** The rows are left as the formatted records. *)
Definition formatContactForGoogleSheet (entry : obj) : obj := entry.

Definition fetchPage := fetchPage Reference.getURLParams Reference.getHostName
  Reference.newDate recent_endpoint batch_endpoint.

Definition loopContacts := loopContacts Reference.getURLParams Reference.getHostName
  Reference.newDate recent_endpoint batch_endpoint obj formatContactForGoogleSheet.

(** One contact with a deal in the [default] pipeline at a stage the
    pipeline does not have, and one whose deal names an unknown pipeline. *)
Definition catalog : list PipelineDetail :=
  [ {| pipelineId := "default";
       stages := [ {| stageId := "appointmentscheduled"; stage_label := "Scheduled" |};
                   {| stageId := "closedwon"; stage_label := "Won" |} ] |} ].

Definition associations_endpoint (contactId : Z) : option (list Z) :=
  match contactId with
  | 1 => Some [10; 11]
  | 2 => Some [12]
  | 3 => Some [10; 13]
  | _ => None
  end.

Definition deal_with (id : Z) (pipe stg : string) : RawDeal :=
  {| dealId := id;
     deal_properties := props [("pipeline", VStr pipe); ("dealstage", VStr stg)] |}.

Definition deal_endpoint (id : Z) : option RawDeal :=
  match id with
  | 10 => Some (deal_with 10 "default" "closedwon")
  | 11 => Some (deal_with 11 "default" "appointmentscheduled")
  | 12 => Some (deal_with 12 "default" "retired-stage")
  | 13 => Some (deal_with 13 "retired-pipeline" "closedwon")
  | _ => None
  end.

Definition getDealsFromContact :=
  getDealsFromContact associations_endpoint (Some catalog) deal_endpoint.

End Examples.

(** ** Further vocabulary and samples *)

(** The keys every formatted contact has, and the ones the attribution
    branch adds. *)
Definition base_keys : gset string :=
  {[ "id"; "analytics_source"; "hs_url"; "addedAt" ]}.

Definition attribution_keys : gset string :=
  {[ "institution"; "utm_source"; "utm_campaign"; "hsa_grp"; "utm_content" ]}.

(** The six properties [formatContact] reads. *)
Definition read_properties : list string :=
  [ "hs_analytics_source"; "hs_analytics_first_url"; "hs_analytics_last_url";
    "hs_analytics_first_referrer"; "hs_analytics_last_referrer";
    "first_conversion_event_name" ].

(** A summary of the page carries the vid. *)
Definition listed (contacts : list ContactSummary) (v : Z) : Prop :=
  exists s, s ∈ contacts /\ summary_vid s = v.

Module MoreExamples.

(** A first-touch URL property whose value is [null]. *)
Definition null_url_contact : ContactDetail :=
  {| vid := 47;
     properties := Examples.props
       [ ("hs_analytics_source", VStr "OFFLINE");
         ("hs_analytics_first_url", VNull) ];
     form_submissions := Some [];
     addedAt := 1583069400000 |}.

(** A listing whose second request is rejected. *)
Definition failing_endpoint (vidOffset timeOffset : option Z) : option ContactsData :=
  match vidOffset, timeOffset with
  | None, None => Some Examples.page1
  | _, _ => None
  end.

(** A batch response that holds a contact the page did not list. *)
Definition stray_batch_endpoint (vids : list Z) : option (list RawDetail) :=
  Some (map Examples.raw_detail (vids ++ [999])%list).

(** A pipeline without stages beside the [default] one, and deals
    that carry no [dealstage] property. *)
Definition catalog : list PipelineDetail :=
  (Examples.catalog ++ [ {| pipelineId := "empty"; stages := [] |} ])%list.

Definition deal_without_stage (id : Z) (pipe : string) : RawDeal :=
  {| dealId := id;
     deal_properties := Examples.props [("pipeline", VStr pipe)] |}.

Definition deal_endpoint (id : Z) : option RawDeal :=
  match id with
  | 14 => Some (deal_without_stage 14 "default")
  | 15 => Some (deal_without_stage 15 "empty")
  | _ => Examples.deal_endpoint id
  end.

Definition associations_endpoint (contactId : Z) : option (list Z) :=
  match contactId with
  | 5 => Some [10; 99]
  | _ => Examples.associations_endpoint contactId
  end.

End MoreExamples.

Module Counterexamples.

(** A last-touch URL whose hostname names an inherited member. *)
Definition constructor_contact : ContactDetail :=
  {| vid := 48;
     properties := Examples.props
       [ ("hs_analytics_source", VStr "REFERRALS");
         ("hs_analytics_last_url", VStr "http://constructor/lp?utm_source=x") ];
     form_submissions := Some [];
     addedAt := 1583069400000 |}.

(** A listing of one contact added in the last minute of the year 999. *)
Definition ancient_endpoint (vidOffset timeOffset : option Z) : option ContactsData :=
  Some {| contacts := [ {| summary_vid := 401; summary_addedAt := -30610224060000 |} ];
          has_more := false;
          vid_offset := 401;
          time_offset := -30610224060000 |}.

(** A listing of two pages whose first contact has the timestamp 0;
    the first page reports more data. *)
Definition epoch_page1 : ContactsData :=
  {| contacts := [ {| summary_vid := 301; summary_addedAt := 0 |} ];
     has_more := true;
     vid_offset := 301;
     time_offset := 1583065800000 |}.

Definition epoch_page2 : ContactsData :=
  {| contacts := [ {| summary_vid := 302; summary_addedAt := 1583062200000 |} ];
     has_more := false;
     vid_offset := 302;
     time_offset := 1583062200000 |}.

Definition epoch_endpoint (vidOffset timeOffset : option Z) : option ContactsData :=
  match vidOffset, timeOffset with
  | None, None => Some epoch_page1
  | Some 301, Some 1583065800000 => Some epoch_page2
  | _, _ => None
  end.

(** A failed fetch of a page stands for no page. *)
Definition page_or_empty (r : result Page) : Page :=
  match r with
  | Ok pg => pg
  | Throw _ => {| page_data := epoch_page2; page_detailed := [];
                  page_new := []; page_formatted := [] |}
  end.

(** A contact whose only deal is deal 14, which has no [dealstage]. *)
Definition associations_endpoint (contactId : Z) : option (list Z) := Some [14].

End Counterexamples.

Example formattedDate_2020 :
  formattedDate Reference.newDate 1583069400000 = "01/03/2020 - 13:30".
Proof. vm_compute. reflexivity. Qed.

Example getURLParams_sample :
  Reference.getURLParams (VStr "https://dmi.espm.br/lp?utm_source=b&hsa_grp=7#top")
  = <["utm_source" := "b"]> (<["hsa_grp" := "7"]> ∅).
Proof. vm_compute. reflexivity. Qed.

Example getHostName_sample :
  Reference.getHostName (VStr "https://dmi.espm.br/lp?utm_source=b") = "dmi.espm.br".
Proof. vm_compute. reflexivity. Qed.

(** ** Facts about the JavaScript primitives *)

Lemma map_throwing_Ok_lookup {A B} (f : A -> result B) xs ys i y :
  map_throwing f xs = Ok ys -> ys !! i = Some y ->
  exists x, xs !! i = Some x /\ f x = Ok y.
Proof.
  revert ys i. induction xs as [|x xs IH]; intros ys i; simpl.
  - intros [= <-]. by rewrite lookup_nil.
  - destruct (f x) as [y0|] eqn:Hx; simpl; [|done].
    destruct (map_throwing f xs) as [ys0|] eqn:Hxs; simpl; [|done].
    intros [= <-]. destruct i as [|i]; simpl.
    + intros [= <-]. eauto.
    + intros Hi. by apply (IH ys0).
Qed.

Lemma map_throwing_Ok_length {A B} (f : A -> result B) xs ys :
  map_throwing f xs = Ok ys -> length ys = length xs.
Proof.
  revert ys. induction xs as [|x xs IH]; intros ys; simpl.
  - by intros [= <-].
  - destruct (f x); simpl; [|done].
    destruct (map_throwing f xs); simpl; [|done].
    intros [= <-]. simpl. f_equal. by apply IH.
Qed.

Lemma map_throwing_Throw {A B} (f : A -> result B) xs x e :
  x ∈ xs -> f x = Throw e -> exists e', map_throwing f xs = Throw e'.
Proof.
  intros Hin Hx. induction Hin as [x xs|x y xs Hin IH]; simpl.
  - rewrite Hx. simpl. eauto.
  - destruct (f y); simpl; [|eauto].
    destruct (IH Hx) as [e' ->]. simpl. eauto.
Qed.

Lemma map_throwing_Forall2 {A B} (f : A -> result B) (R : A -> B -> Prop) xs :
  Forall (fun x => exists y, f x = Ok y /\ R x y) xs ->
  exists ys, map_throwing f xs = Ok ys /\ Forall2 R xs ys.
Proof.
  induction 1 as [|x xs (y & Hy & HR) _ (ys & Hys & IH)]; simpl.
  - eauto.
  - rewrite Hy, Hys. simpl. eauto.
Qed.

Lemma findIndex_range {A} (p : A -> bool) xs :
  findIndex p xs = -1 \/ 0 <= findIndex p xs.
Proof.
  induction xs as [|x xs IH]; simpl; [lia|].
  destruct (p x); [lia|].
  destruct (Z.eqb_spec (findIndex p xs) (-1)); lia.
Qed.

Lemma findIndex_none {A} (p : A -> bool) xs :
  findIndex p xs = -1 <-> Forall (fun x => p x = false) xs.
Proof.
  induction xs as [|x xs IH]; simpl.
  - split; [constructor | done].
  - destruct (p x) eqn:Hp.
    + split; [done | inversion 1; congruence].
    + destruct (Z.eqb_spec (findIndex p xs) (-1)) as [Heq|Hne].
      * split; [intros _; constructor; tauto | done].
      * pose proof (findIndex_range p xs).
        split; [lia | inversion 1; tauto].
Qed.

Lemma findIndex_found {A} (p : A -> bool) xs :
  findIndex p xs <> -1 ->
  exists x, xs !! Z.to_nat (findIndex p xs) = Some x /\ p x = true /\
            Forall (fun y => p y = false) (take (Z.to_nat (findIndex p xs)) xs) /\
            0 <= findIndex p xs.
Proof.
  induction xs as [|x xs IH]; simpl; [done|].
  destruct (p x) eqn:Hp.
  - intros _. exists x. simpl. split; [done|]. split; [done|]. split; [constructor | lia].
  - destruct (Z.eqb_spec (findIndex p xs) (-1)) as [Heq|Hne]; [done|].
    intros _. destruct (IH Hne) as (y & Hy & Hpy & Hpre & Hge).
    exists y. replace (Z.to_nat (findIndex p xs + 1)) with (S (Z.to_nat (findIndex p xs))) by lia.
    simpl. split; [done|]. split; [done|]. split; [by constructor | lia].
Qed.

(** ** Facts about [formatContact] *)

Ltac obj_lookup :=
  repeat first [ rewrite lookup_insert_eq
               | rewrite lookup_insert_ne by done
               | rewrite lookup_empty ].

Section FormattingFacts.

Variable getURLParams : jsval -> gmap string string.
Variable getHostName : jsval -> string.
Variable newDate : Z -> option DateFields.

Lemma INSTITUTIONS_lookup host :
  get_computed INSTITUTIONS host = institution_lookup host.
Proof.
  unfold get_computed, INSTITUTIONS, institution_lookup.
  repeat match goal with
  | |- context [String.eqb host ?k] =>
      lazymatch k with
      | String _ _ =>
          destruct (String.eqb_spec host k) as [->|?];
            [by obj_lookup | rewrite (lookup_insert_ne _ k host) by done]
      end
  end.
  by rewrite lookup_empty.
Qed.




(** C10: [formatContact] returns exactly when the contact carries the
    [hs_analytics_source] property and a ["form-submissions"] sequence;
    the record it returns then holds that property's value under
    [analytics_source]. On any other contact it throws. *)
Theorem formatContact_preconditions (c : ContactDetail) :
  match properties c !! "hs_analytics_source", form_submissions c with
  | Some pv, Some _ =>
      exists out, formatContact getURLParams getHostName newDate c = Ok out /\
                  out !! "analytics_source" = Some (value pv)
  | _, _ => exists e, formatContact getURLParams getHostName newDate c = Throw e
  end.
Proof.
  unfold formatContact, formatContact_locals.
  destruct (properties c !! "hs_analytics_source") as [pv|]; simpl; [|eauto].
  destruct (form_submissions c) as [fs|]; simpl; [|eauto].
  destruct (any_candidate _ _); simpl; [|eexists; split; [done | by obj_lookup]].
  destruct (strict_eq_str _ "linkedin"); [|eexists; split; [done | by obj_lookup]].
  destruct (properties c !! "first_conversion_event_name");
    eexists; (split; [done | by obj_lookup]).
Qed.

(** C2, amended: without any of the four analytics URL properties and
    without a form-submission page URL, a contact that carries
    [hs_analytics_source] and a form-submissions sequence is formatted
    as exactly the four fields [id], [analytics_source], [hs_url] and
    [addedAt], whether or not it has a first-conversion-event name. *)
Theorem formatContact_short_circuit (c : ContactDetail) pv fs :
  properties c !! "hs_analytics_source" = Some pv ->
  form_submissions c = Some fs ->
  properties c !! "hs_analytics_first_url" = None ->
  properties c !! "hs_analytics_last_url" = None ->
  properties c !! "hs_analytics_first_referrer" = None ->
  properties c !! "hs_analytics_last_referrer" = None ->
  truthy (form_submission_page fs) = false ->
  formatContact getURLParams getHostName newDate c =
    Ok (<["analytics_source" := value pv]> (minimal_record newDate c)).
Proof.
  intros Hsrc Hfs H1 H2 H3 H4 Hpage.
  unfold formatContact, formatContact_locals, minimal_record.
  rewrite Hsrc, Hfs. simpl. unfold any_candidate.
  rewrite H1, H2, H3, H4, Hpage. simpl. reflexivity.
Qed.

Lemma any_candidate_spec props fs :
  any_candidate props fs = true <->
  is_Some (props !! "hs_analytics_first_url") \/
  is_Some (props !! "hs_analytics_last_url") \/
  is_Some (props !! "hs_analytics_first_referrer") \/
  is_Some (props !! "hs_analytics_last_referrer") \/
  truthy (form_submission_page fs) = true.
Proof.
  unfold any_candidate. rewrite !orb_true_iff, !bool_decide_eq_true. tauto.
Qed.

Ltac enter_branch Hsrc Hfs Hany :=
  unfold formatContact, formatContact_locals;
  rewrite Hsrc, Hfs;
  cbn [mbind result_bind deref fmap result_fmap];
  rewrite Hany;
  cbn [mbind result_bind fmap result_fmap snd].

(** C5: when the merged [utm_source] is ["facebook"] and the first
    referrer is exactly ["http://instagram.com/"], the local [source]
    ends as ["instagram"] while the [utm_source] field of the returned
    record still holds ["facebook"]. *)
Theorem instagram_override_is_local (c : ContactDetail) pv fs r :
  properties c !! "hs_analytics_source" = Some pv ->
  form_submissions c = Some fs ->
  properties c !! "hs_analytics_first_referrer" = Some r ->
  value r = VStr "http://instagram.com/" ->
  get (queryParams getURLParams (landingPageUrls (properties c) fs)) "utm_source"
    = VStr "facebook" ->
  exists out,
    formatContact_locals getURLParams getHostName newDate c
      = Ok (Some (VStr "instagram"), out) /\
    formatContact getURLParams getHostName newDate c = Ok out /\
    out !! "utm_source" = Some (VStr "facebook").
Proof.
  intros Hsrc Hfs Hr Hv Hq.
  assert (Hany : any_candidate (properties c) fs = true).
  { apply any_candidate_spec. rewrite Hr. eauto. }
  enter_branch Hsrc Hfs Hany.
  unfold final_source. rewrite Hq, Hr, Hv. simpl.
  eexists. split; [done|]. split; [done|]. by obj_lookup.
Qed.

(** C6, amended: with at least one candidate present, the
    [institution] field is decided by the last-touch URL property
    alone. Without that property it is [undefined]. With it, the
    hostname of the property's value is looked up among the five
    hostnames of the table, by exact comparison; a hostname that names
    a member inherited from [Object.prototype] yields that member, and
    every other hostname yields [undefined]. The contact is formatted
    without an exception in each case. *)
Theorem institution_from_last_url (c : ContactDetail) pv fs :
  properties c !! "hs_analytics_source" = Some pv ->
  form_submissions c = Some fs ->
  any_candidate (properties c) fs = true ->
  exists out,
    formatContact getURLParams getHostName newDate c = Ok out /\
    out !! "institution" =
      Some (match properties c !! "hs_analytics_last_url" with
            | Some last_url => institution_lookup (getHostName (value last_url))
            | None => VUndef
            end).
Proof.
  intros Hsrc Hfs Hany. enter_branch Hsrc Hfs Hany.
  assert (Hinst : institution_of getHostName (properties c) =
                  match properties c !! "hs_analytics_last_url" with
                  | Some last_url => institution_lookup (getHostName (value last_url))
                  | None => VUndef
                  end).
  { unfold institution_of. destruct (properties c !! "hs_analytics_last_url"); [|done].
    apply INSTITUTIONS_lookup. }
  rewrite Hinst.
  destruct (strict_eq_str _ "linkedin"); [|eexists; split; [done | by obj_lookup]].
  destruct (properties c !! "first_conversion_event_name");
    eexists; (split; [done | by obj_lookup]).
Qed.


(** C8: when the resolved source is ["linkedin"], the returned record
    has an [ad] field holding the value of the
    [first_conversion_event_name] property if the contact has that
    property, and no [ad] key if it has not. *)
Theorem linkedin_ad_field (c : ContactDetail) pv fs :
  properties c !! "hs_analytics_source" = Some pv ->
  form_submissions c = Some fs ->
  any_candidate (properties c) fs = true ->
  final_source (properties c)
    (queryParams getURLParams (landingPageUrls (properties c) fs)) = VStr "linkedin" ->
  exists out,
    formatContact getURLParams getHostName newDate c = Ok out /\
    out !! "ad" = value <$> (properties c !! "first_conversion_event_name").
Proof.
  intros Hsrc Hfs Hany Hlinkedin. enter_branch Hsrc Hfs Hany.
  rewrite Hlinkedin. simpl.
  destruct (properties c !! "first_conversion_event_name");
    eexists; (split; [done | by obj_lookup]).
Qed.

End FormattingFacts.

(** ** The formatting facts on the sample contacts *)

Lemma Reference_getURLParams_absent url :
  present url = false -> Reference.getURLParams url = ∅.
Proof. by destruct url. Qed.

Lemma formatContact_short_circuit_witness :
  formatContact Reference.getURLParams Reference.getHostName Reference.newDate
    Examples.bare_contact
  = Ok (<["analytics_source" := VStr "DIRECT_TRAFFIC"]>
          (minimal_record Reference.newDate Examples.bare_contact)).
Proof.
  apply (formatContact_short_circuit Reference.getURLParams Reference.getHostName
           Reference.newDate Examples.bare_contact
           {| value := VStr "DIRECT_TRAFFIC" |} []);
    vm_compute; reflexivity.
Defined.

(** C2 as stated fails on [bare_contact]: it has none of the five
    candidate URLs and no first-conversion-event name, yet its record
    is not the three-field one, because it carries [analytics_source]. *)
Lemma short_circuit_is_not_three_fields :
  properties Examples.bare_contact !! "hs_analytics_first_url" = None /\
  properties Examples.bare_contact !! "hs_analytics_last_url" = None /\
  properties Examples.bare_contact !! "hs_analytics_first_referrer" = None /\
  properties Examples.bare_contact !! "hs_analytics_last_referrer" = None /\
  form_submissions Examples.bare_contact = Some [] /\
  properties Examples.bare_contact !! "first_conversion_event_name" = None /\
  formatContact Reference.getURLParams Reference.getHostName Reference.newDate
    Examples.bare_contact
  <> Ok (minimal_record Reference.newDate Examples.bare_contact).
Proof.
  repeat (split; [vm_compute; reflexivity|]).
  intros H.
  apply (f_equal (fun r => match r with
                           | Ok o => o !! "analytics_source"
                           | Throw _ => None
                           end)) in H.
  vm_compute in H. discriminate H.
Qed.

Lemma instagram_override_is_local_witness :
  exists out,
    formatContact_locals Reference.getURLParams Reference.getHostName Reference.newDate
      Examples.instagram_contact = Ok (Some (VStr "instagram"), out) /\
    formatContact Reference.getURLParams Reference.getHostName Reference.newDate
      Examples.instagram_contact = Ok out /\
    out !! "utm_source" = Some (VStr "facebook").
Proof.
  apply (instagram_override_is_local Reference.getURLParams Reference.getHostName
           Reference.newDate Examples.instagram_contact
           {| value := VStr "PAID_SOCIAL" |} []
           {| value := VStr "http://instagram.com/" |});
    vm_compute; reflexivity.
Defined.

Lemma institution_from_last_url_witness :
  exists out,
    formatContact Reference.getURLParams Reference.getHostName Reference.newDate
      Examples.espm_contact = Ok out /\
    out !! "institution" = Some (VStr "ESPM").
Proof.
  apply (institution_from_last_url Reference.getURLParams Reference.getHostName
           Reference.newDate Examples.espm_contact
           {| value := VStr "PAID_SEARCH" |}
           [ {| page_url := VStr "https://gestaopublica.fecap.br/form" |} ]);
    vm_compute; reflexivity.
Defined.


Lemma linkedin_ad_field_witness :
  (exists out,
     formatContact Reference.getURLParams Reference.getHostName Reference.newDate
       Examples.linkedin_contact = Ok out /\
     out !! "ad" = Some (VStr "Inscricao MBA")) /\
  (exists out,
     formatContact Reference.getURLParams Reference.getHostName Reference.newDate
       Examples.linkedin_contact_no_event = Ok out /\
     out !! "ad" = None).
Proof.
  split.
  - apply (linkedin_ad_field Reference.getURLParams Reference.getHostName
             Reference.newDate Examples.linkedin_contact
             {| value := VStr "PAID_SOCIAL" |} []);
      vm_compute; reflexivity.
  - apply (linkedin_ad_field Reference.getURLParams Reference.getHostName
             Reference.newDate Examples.linkedin_contact_no_event
             {| value := VStr "PAID_SOCIAL" |} []);
      vm_compute; reflexivity.
Defined.

(** C6 as stated fails on [constructor_contact]: the hostname of its
    last-touch URL is none of the five of the table, yet its
    [institution] is not [undefined] but the inherited member
    [constructor]. *)
Lemma inherited_hostname_is_not_undefined :
  any_candidate (properties Counterexamples.constructor_contact) [] = true /\
  Reference.getHostName (VStr "http://constructor/lp?utm_source=x") = "constructor" /\
  institution_spec "constructor" = VUndef /\
  exists out,
    formatContact Reference.getURLParams Reference.getHostName Reference.newDate
      Counterexamples.constructor_contact = Ok out /\
    out !! "institution" = Some (VObject "constructor") /\
    out !! "institution" <> Some (institution_spec "constructor").
Proof.
  repeat (split; [vm_compute; reflexivity|]).
  exists (match formatContact Reference.getURLParams Reference.getHostName
                  Reference.newDate Counterexamples.constructor_contact with
          | Ok o => o
          | Throw _ => ∅
          end).
  split.
  { vm_cast_no_check (eq_refl (formatContact Reference.getURLParams
                                 Reference.getHostName Reference.newDate
                                 Counterexamples.constructor_contact)). }
  split; [vm_compute; reflexivity|].
  vm_compute. discriminate.
Qed.

(** ** The date format *)

Lemma withZeros_two_digits n :
  0 <= n < 100 -> withZeros (Some n) = two_digits n.
Proof.
  intros Hn.
  assert (Hall : forallb (fun k => String.eqb (withZeros (Some (Z.of_nat k)))
                                     (two_digits (Z.of_nat k))) (seq 0 100) = true)
    by (vm_compute; reflexivity).
  rewrite forallb_forall in Hall.
  specialize (Hall (Z.to_nat n)). rewrite Z2Nat.id in Hall by lia.
  apply String.eqb_eq, Hall, in_seq. lia.
Qed.

Lemma withZeros_four_digits n :
  1000 <= n <= 9999 -> withZeros (Some n) = four_digits n.
Proof.
  intros Hn.
  assert (Hall : forallb (fun k => String.eqb (withZeros (Some (1000 + Z.of_nat k)))
                                     (four_digits (1000 + Z.of_nat k)))
                   (seq 0 (Z.to_nat 9000)) = true)
    by (vm_compute; reflexivity).
  rewrite forallb_forall in Hall.
  specialize (Hall (Z.to_nat (n - 1000))).
  replace (1000 + Z.of_nat (Z.to_nat (n - 1000))) with n in Hall by lia.
  apply String.eqb_eq, Hall, in_seq. lia.
Qed.

Lemma formattedDate_render newDate t f :
  newDate t = Some f -> calendar_fields f ->
  formattedDate newDate t = render_date f.
Proof.
  intros Hd (Hday & Hmonth & Hyear & Hhours & Hminutes).
  unfold formattedDate, render_date. rewrite Hd. cbn [fmap option_fmap option_map].
  rewrite (withZeros_four_digits (getFullYear f)) by lia.
  by rewrite !withZeros_two_digits by lia.
Qed.

(** ** Facts about the pagination loop *)

Lemma insertAddedDate_lookup contacts raws details i d :
  insertAddedDateOnDetailedContacts contacts raws = Ok details ->
  details !! i = Some d ->
  exists dc s,
    raws !! i = Some dc /\
    find (fun s => summary_vid s =? raw_vid dc) contacts = Some s /\
    vid d = raw_vid dc /\ addedAt d = summary_addedAt s.
Proof.
  intros Hmap Hi.
  destruct (map_throwing_Ok_lookup _ _ _ _ _ Hmap Hi) as (dc & Hdc & Hf).
  destruct (find _ contacts) as [s|] eqn:Hfind; simpl in Hf; [|done].
  injection Hf as <-. by exists dc, s.
Qed.

Lemma newContacts_cases vidStop timeStop details :
  newContacts vidStop timeStop details =
    if vidStopIndex vidStop details =? -1 then details
    else take (Z.to_nat (vidStopIndex vidStop details)) details.
Proof.
  unfold newContacts, slice0. by destruct (vidStopIndex vidStop details =? -1).
Qed.

Lemma newContacts_lookup vidStop timeStop details i d :
  newContacts vidStop timeStop details !! i = Some d -> details !! i = Some d.
Proof.
  rewrite newContacts_cases. destruct (_ =? -1); [done|].
  intros H. apply lookup_take_Some in H. tauto.
Qed.

Lemma vidStopIndex_none vidStop details :
  vidStopIndex vidStop details = -1 <-> ~ vid_stop_matched vidStop details.
Proof.
  unfold vidStopIndex, vid_stop_matched. rewrite findIndex_none, Forall_forall.
  split.
  - intros Hall (c & Hin & ->). specialize (Hall c Hin). simpl in Hall. lia.
  - intros Hno c Hin. destruct vidStop as [v|]; simpl; [|done].
    apply Z.eqb_neq. intros <-. apply Hno. eauto.
Qed.

Lemma timeStopIndex_none timeStop details :
  timeStopIndex timeStop details = -1 <-> ~ time_stop_matched timeStop details.
Proof.
  unfold timeStopIndex, time_stop_matched, time_stops. rewrite findIndex_none, Forall_forall.
  split.
  - intros Hall (c & Hin & Hle). specialize (Hall c Hin). lia.
  - intros Hno c Hin. apply Z.leb_gt.
    destruct (Z.lt_ge_cases (null_to_number timeStop) (addedAt c)); [done|].
    exfalso. apply Hno. eauto.
Qed.

Lemma keep_looping_continues pg vidStop timeStop :
  keep_looping (page_data pg) vidStop timeStop (page_detailed pg) = true <->
  continues vidStop timeStop pg.
Proof.
  unfold keep_looping, continues.
  rewrite !andb_true_iff, !Z.eqb_eq, vidStopIndex_none, timeStopIndex_none. tauto.
Qed.

Section PaginationFacts.

Variable getURLParams : jsval -> gmap string string.
Variable getHostName : jsval -> string.
Variable newDate : Z -> option DateFields.
Variable recent_endpoint : option Z -> option Z -> option ContactsData.
Variable batch_endpoint : list Z -> option (list RawDetail).
Variable Row : Type.
Variable formatContactForGoogleSheet : obj -> Row.

Lemma formatContact_addedAt (d : ContactDetail) out :
  formatContact getURLParams getHostName newDate d = Ok out ->
  out !! "addedAt" = Some (VStr (formattedDate newDate (addedAt d))).
Proof.
  unfold formatContact, formatContact_locals.
  destruct (properties d !! "hs_analytics_source"); simpl; [|done].
  destruct (form_submissions d); simpl; [|done].
  destruct (any_candidate _ _); simpl; [|intros [= <-]; by obj_lookup].
  destruct (strict_eq_str _ "linkedin"); [|intros [= <-]; by obj_lookup].
  destruct (properties d !! "first_conversion_event_name");
    intros [= <-]; by obj_lookup.
Qed.

Lemma fetchPage_Ok vidOffset timeOffset vidStop timeStop pg :
  fetchPage getURLParams getHostName newDate recent_endpoint batch_endpoint
    vidOffset timeOffset vidStop timeStop = Ok pg ->
  exists raws,
    recent_endpoint (pagination vidOffset) (pagination timeOffset) = Some (page_data pg) /\
    batch_endpoint (map summary_vid (contacts (page_data pg))) = Some raws /\
    insertAddedDateOnDetailedContacts (contacts (page_data pg)) raws
      = Ok (page_detailed pg) /\
    page_new pg = newContacts vidStop timeStop (page_detailed pg) /\
    map_throwing (formatContact getURLParams getHostName newDate) (page_new pg)
      = Ok (page_formatted pg).
Proof.
  unfold fetchPage, getContacts, getContactsDetailedInfo.
  destruct (recent_endpoint _ _) as [cd|] eqn:Hcd; simpl; [|done].
  destruct (batch_endpoint _) as [raws|] eqn:Hraws; simpl; [|done].
  destruct (insertAddedDateOnDetailedContacts _ raws) as [details|] eqn:Hjoin;
    simpl; [|done].
  destruct (map_throwing _ (newContacts _ _ details)) as [rows|] eqn:Hrows;
    simpl; [|done].
  intros [= <-]. simpl. exists raws. auto.
Qed.

(** C9, amended: in every page, the [addedAt] of a formatted contact
    is the formatted [addedAt] of the first summary of that page
    carrying the contact's [vid]; when the platform reads that
    timestamp as a valid calendar date whose year has four digits, the
    text is [DD/MM/YYYY - HH:mm] with every field zero-padded. *)
Theorem addedAt_joined_and_formatted vidOffset timeOffset vidStop timeStop pg i out :
  fetchPage getURLParams getHostName newDate recent_endpoint batch_endpoint
    vidOffset timeOffset vidStop timeStop = Ok pg ->
  page_formatted pg !! i = Some out ->
  exists d s,
    page_new pg !! i = Some d /\
    find (fun s => summary_vid s =? vid d) (contacts (page_data pg)) = Some s /\
    summary_vid s = vid d /\
    addedAt d = summary_addedAt s /\
    out !! "addedAt" = Some (VStr (formattedDate newDate (summary_addedAt s))) /\
    forall f, newDate (summary_addedAt s) = Some f -> calendar_fields f ->
              out !! "addedAt" = Some (VStr (render_date f)).
Proof.
  intros Hpage Hout.
  destruct (fetchPage_Ok _ _ _ _ _ Hpage) as (raws & _ & _ & Hjoin & Hnew & Hrows).
  destruct (map_throwing_Ok_lookup _ _ _ _ _ Hrows Hout) as (d & Hd & Hfmt).
  assert (Hd' : page_detailed pg !! i = Some d).
  { rewrite Hnew in Hd. by apply newContacts_lookup in Hd. }
  destruct (insertAddedDate_lookup _ _ _ _ _ Hjoin Hd') as (dc & s & _ & Hfind & Hvid & Hat).
  exists d, s. rewrite Hvid.
  pose proof (find_some _ _ Hfind) as [_ Heq%Z.eqb_eq].
  pose proof (formatContact_addedAt _ _ Hfmt) as Hfield. rewrite Hat in Hfield.
  repeat (split; [done|]).
  intros f Hf Hcal. by rewrite <- (formattedDate_render _ _ _ Hf Hcal).
Qed.

(** C3, amended: the loop goes on to the next page exactly while the
    fetched page reports more data, no contact of the page has the
    stop vid and no contact of the page has [addedAt <= timeStop], an
    unset [timeStop] being compared as the number 0; when it halts it
    has appended one batch per visited page to the sheet and returns
    the retained enriched details of the visited pages, concatenated in
    page order after the incoming accumulator. *)
Theorem pagination_accumulates fuel vidOffset timeOffset vidStop timeStop
    sheet (acc : list ContactDetail) (log : list (SheetAppend Row)) pgs :
  visits (fun v t => fetchPage getURLParams getHostName newDate recent_endpoint
                       batch_endpoint v t vidStop timeStop)
    vidStop timeStop vidOffset timeOffset pgs ->
  (length pgs <= fuel)%nat ->
  loopContacts getURLParams getHostName newDate recent_endpoint batch_endpoint
    Row formatContactForGoogleSheet fuel vidOffset timeOffset vidStop timeStop
    sheet acc log
  = Some ((log ++ map (fun pg => formatAndAppendToSheet Row formatContactForGoogleSheet
                                   (page_formatted pg) (sheetId sheet) (range sheet))
                      pgs)%list,
          Some (acc ++ concat (map page_new pgs))%list) /\
  length (acc ++ concat (map page_new pgs))%list
  = (length acc + sum_list (map (fun pg => length (page_new pg)) pgs))%nat.
Proof.
  intros Hvisits Hfuel. split.
  - revert fuel acc log Hfuel.
    induction Hvisits as [vo to pg Hpage Hhalt | vo to pg pgs Hpage Hcont _ IH];
      intros [|fuel] acc log Hfuel; simpl in Hfuel; try lia; simpl; rewrite Hpage.
    + rewrite <- keep_looping_continues in Hhalt.
      destruct (keep_looping _ _ _ _); [done|].
      by rewrite app_nil_r.
    + apply keep_looping_continues in Hcont. rewrite Hcont.
      rewrite IH by lia. by rewrite <- !app_assoc.
  - rewrite length_app. f_equal. clear.
    induction pgs as [|pg pgs IH]; simpl; [done|].
    by rewrite length_app, IH.
Qed.

End PaginationFacts.

(** ** Facts about [getDealsFromContact] *)

Lemma find_throwing_property {A} (d : RawDeal) name pv (id : A -> string) xs :
  deal_properties d !! name = Some pv ->
  find_throwing (fun x => matches_property d name (id x)) xs
  = Ok (find (fun x => strict_eq_str (value pv) (id x)) xs).
Proof.
  intros Hpv.
  assert (Hm : forall i, matches_property d name i = Ok (strict_eq_str (value pv) i)).
  { intros i. unfold matches_property. by rewrite Hpv. }
  induction xs as [|x xs IH]; simpl; [done|].
  rewrite Hm. simpl. by destruct (strict_eq_str (value pv) (id x)).
Qed.

Section DealFacts.

Variable associations_endpoint : Z -> option (list Z).
Variable pipelines_endpoint : option (list PipelineDetail).
Variable deal_endpoint : Z -> option RawDeal.

Lemma resolveDeal_unknown_pipeline catalog id d :
  deal_endpoint id = Some d ->
  lookup_pipeline catalog d = None ->
  exists e, resolveDeal deal_endpoint catalog id = Throw e.
Proof.
  unfold resolveDeal, getDeal, lookup_pipeline. intros -> Hnone. simpl.
  destruct (deal_properties d !! "pipeline") as [pv|] eqn:Hpv; simpl in Hnone.
  - rewrite (find_throwing_property d "pipeline" pv pipelineId catalog Hpv), Hnone.
    simpl. eauto.
  - destruct catalog as [|p ps]; simpl; [eauto|].
    unfold matches_property. rewrite Hpv. simpl. eauto.
Qed.

Lemma resolveDeal_joined catalog id d p :
  deal_endpoint id = Some d ->
  lookup_pipeline catalog d = Some p ->
  is_Some (deal_properties d !! "dealstage") ->
  resolveDeal deal_endpoint catalog id
  = Ok {| deal := d; pipeline := p; stage := lookup_stage p d |}.
Proof.
  unfold resolveDeal, getDeal, lookup_pipeline, lookup_stage. intros -> Hp [sv Hsv]. simpl.
  destruct (deal_properties d !! "pipeline") as [pv|] eqn:Hpv; simpl in Hp; [|done].
  rewrite (find_throwing_property d "pipeline" pv pipelineId catalog Hpv), Hp. simpl.
  rewrite (find_throwing_property d "dealstage" sv stageId (stages p) Hsv), Hsv.
  done.
Qed.

Lemma resolveDeal_missing_dealstage catalog id d p :
  deal_endpoint id = Some d ->
  lookup_pipeline catalog d = Some p ->
  deal_properties d !! "dealstage" = None ->
  stages p <> [] ->
  exists e, resolveDeal deal_endpoint catalog id = Throw e.
Proof.
  unfold resolveDeal, getDeal, lookup_pipeline. intros -> Hp Hnone Hstages. simpl.
  destruct (deal_properties d !! "pipeline") as [pv|] eqn:Hpv; simpl in Hp; [|done].
  rewrite (find_throwing_property d "pipeline" pv pipelineId catalog Hpv), Hp. simpl.
  destruct (stages p) as [|s ss]; [done|]. simpl.
  unfold matches_property. rewrite Hnone. simpl. eauto.
Qed.

Lemma resolveDeal_joined_no_stages catalog id d p :
  deal_endpoint id = Some d ->
  lookup_pipeline catalog d = Some p ->
  stages p = [] ->
  resolveDeal deal_endpoint catalog id
  = Ok {| deal := d; pipeline := p; stage := lookup_stage p d |}.
Proof.
  unfold resolveDeal, getDeal, lookup_pipeline, lookup_stage. intros -> Hp Hstages. simpl.
  destruct (deal_properties d !! "pipeline") as [pv|] eqn:Hpv; simpl in Hp; [|done].
  rewrite (find_throwing_property d "pipeline" pv pipelineId catalog Hpv), Hp. simpl.
  rewrite Hstages. simpl. by destruct (deal_properties d !! "dealstage").
Qed.

(** C4, amended: a deal whose pipeline id is not in the catalog makes
    [getDealsFromContact] log the exception and yield no deals at all,
    and so does a deal that has no [dealstage] property while its
    pipeline has stages. When every associated deal is fetched, has its
    pipeline in the catalog and either carries a [dealstage] property
    or belongs to a pipeline without stages, the result holds one deal
    per associated id, in association order, each with its pipeline and
    with the stage found in that pipeline, which is [undefined] when
    the pipeline has no stage of that id. *)
Theorem getDealsFromContact_joins contactId ids catalog :
  associations_endpoint contactId = Some ids ->
  pipelines_endpoint = Some catalog ->
  ((exists id d, id ∈ ids /\ deal_endpoint id = Some d /\
                 lookup_pipeline catalog d = None) ->
   getDealsFromContact associations_endpoint pipelines_endpoint deal_endpoint contactId
   = None) /\
  ((exists id d p, id ∈ ids /\ deal_endpoint id = Some d /\
                   lookup_pipeline catalog d = Some p /\
                   deal_properties d !! "dealstage" = None /\ stages p <> []) ->
   getDealsFromContact associations_endpoint pipelines_endpoint deal_endpoint contactId
   = None) /\
  ((forall id, id ∈ ids ->
      exists d p, deal_endpoint id = Some d /\ lookup_pipeline catalog d = Some p /\
                  (is_Some (deal_properties d !! "dealstage") \/ stages p = [])) ->
   exists deals,
     getDealsFromContact associations_endpoint pipelines_endpoint deal_endpoint contactId
     = Some deals /\
     Forall2 (fun id dl =>
                deal_endpoint id = Some (deal dl) /\
                lookup_pipeline catalog (deal dl) = Some (pipeline dl) /\
                stage dl = lookup_stage (pipeline dl) (deal dl)) ids deals).
Proof.
  intros Hids Hcatalog.
  unfold getDealsFromContact, getDealIdsFromContact, getAllPipelines.
  rewrite Hids, Hcatalog. simpl. split; [|split].
  - intros (id & d & Hin & Hd & Hnone).
    destruct (resolveDeal_unknown_pipeline catalog id d Hd Hnone) as [e He].
    by destruct (map_throwing_Throw _ _ _ _ Hin He) as [e' ->].
  - intros (id & d & p & Hin & Hd & Hp & Hnone & Hstages).
    destruct (resolveDeal_missing_dealstage catalog id d p Hd Hp Hnone Hstages)
      as [e He].
    by destruct (map_throwing_Throw _ _ _ _ Hin He) as [e' ->].
  - intros Hall.
    destruct (map_throwing_Forall2 (resolveDeal deal_endpoint catalog)
                (fun id dl =>
                   deal_endpoint id = Some (deal dl) /\
                   lookup_pipeline catalog (deal dl) = Some (pipeline dl) /\
                   stage dl = lookup_stage (pipeline dl) (deal dl)) ids)
      as (deals & -> & Hrel).
    + apply Forall_forall. intros id Hin.
      destruct (Hall id Hin) as (d & p & Hd & Hp & [Hs | Hs]).
      * eexists. split; [by apply resolveDeal_joined|]. done.
      * eexists. split; [by apply resolveDeal_joined_no_stages|]. done.
    + simpl. eauto.
Qed.

End DealFacts.

(** C4 as stated fails on contact 2: its deal names a stage the
    [default] pipeline does not have, and [getDealsFromContact] returns
    that deal with an [undefined] stage instead of failing. *)
Lemma unknown_stage_does_not_fail :
  exists d p,
    Examples.deal_endpoint 12 = Some d /\
    lookup_pipeline Examples.catalog d = Some p /\
    Forall (fun s => strict_eq_str (VStr "retired-stage") (stageId s) = false) (stages p) /\
    Examples.getDealsFromContact 2 = Some [ {| deal := d; pipeline := p; stage := None |} ].
Proof.
  eexists. eexists. split; [reflexivity|]. split; [vm_compute; reflexivity|].
  split; [repeat constructor | vm_compute; reflexivity].
Qed.

Lemma getDealsFromContact_joins_witness :
  Examples.getDealsFromContact 3 = None /\
  getDealsFromContact Counterexamples.associations_endpoint (Some Examples.catalog)
    MoreExamples.deal_endpoint 7 = None /\
  exists deals,
    Examples.getDealsFromContact 1 = Some deals /\
    Forall2 (fun id dl =>
               Examples.deal_endpoint id = Some (deal dl) /\
               lookup_pipeline Examples.catalog (deal dl) = Some (pipeline dl) /\
               stage dl = lookup_stage (pipeline dl) (deal dl)) [10; 11] deals.
Proof.
  split; [|split].
  - apply (proj1 (getDealsFromContact_joins Examples.associations_endpoint
                    (Some Examples.catalog) Examples.deal_endpoint 3 [10; 13]
                    Examples.catalog eq_refl eq_refl)).
    exists 13, (Examples.deal_with 13 "retired-pipeline" "closedwon").
    split; [rewrite !elem_of_cons; auto|]. split; vm_compute; reflexivity.
  - apply (proj1 (proj2 (getDealsFromContact_joins Counterexamples.associations_endpoint
                           (Some Examples.catalog) MoreExamples.deal_endpoint 7 [14]
                           Examples.catalog eq_refl eq_refl))).
    exists 14, (MoreExamples.deal_without_stage 14 "default"),
           (hd {| pipelineId := ""; stages := [] |} Examples.catalog).
    split; [rewrite !elem_of_cons; auto|].
    split; [reflexivity|]. split; [vm_compute; reflexivity|].
    split; [vm_compute; reflexivity | discriminate].
  - apply (proj2 (proj2 (getDealsFromContact_joins Examples.associations_endpoint
                           (Some Examples.catalog) Examples.deal_endpoint 1 [10; 11]
                           Examples.catalog eq_refl eq_refl))).
    intros id Hin.
    rewrite !elem_of_cons, elem_of_nil in Hin. destruct Hin as [-> | [-> | []]].
    + eexists. eexists. split; [reflexivity|]. split; [vm_compute; reflexivity|].
      left. vm_compute. eauto.
    + eexists. eexists. split; [reflexivity|]. split; [vm_compute; reflexivity|].
      left. vm_compute. eauto.
Defined.

(** ** The pagination facts on the sample listing *)

Lemma addedAt_joined_and_formatted_witness :
  exists pg out,
    Examples.fetchPage None None None None = Ok pg /\
    page_formatted pg !! 1%nat = Some out /\
    out !! "addedAt" = Some (VStr "01/03/2020 - 12:30").
Proof.
  destruct (Examples.fetchPage None None None None) as [pg|] eqn:Hpage;
    [|by vm_compute in Hpage].
  destruct (page_formatted pg !! 1%nat) as [out|] eqn:Hout;
    [|vm_compute in Hpage; injection Hpage as <-; by vm_compute in Hout].
  exists pg, out. split; [reflexivity|]. split; [exact Hout|].
  destruct (addedAt_joined_and_formatted Reference.getURLParams Reference.getHostName
              Reference.newDate Examples.recent_endpoint Examples.batch_endpoint
              None None None None pg 1%nat out Hpage Hout)
    as (d & s & Hd & Hfind & _ & _ & _ & Hrender).
  vm_compute in Hpage. injection Hpage as <-.
  vm_compute in Hd. injection Hd as <-.
  vm_compute in Hfind. injection Hfind as <-.
  rewrite (Hrender {| getDate := 1; getMonth := 2; getFullYear := 2020;
                      getHours := 12; getMinutes := 30 |}).
  - reflexivity.
  - vm_compute. reflexivity.
  - unfold calendar_fields. simpl. lia.
Defined.

Lemma pagination_accumulates_witness :
  exists log result,
    Examples.loopContacts 2 None None None None Examples.sheet [] []
    = Some (log, Some result) /\
    length log = 2%nat /\
    map vid result = [101; 102; 103; 104; 105].
Proof.
  destruct (Examples.fetchPage None None None None) as [p1|] eqn:H1;
    [|by vm_compute in H1].
  destruct (Examples.fetchPage (Some 102) (Some 1583065800000) None None)
    as [p2|] eqn:H2; [|by vm_compute in H2].
  assert (Hp1 : Examples.fetchPage None None None None = Ok p1) by exact H1.
  assert (Hp2 : Examples.fetchPage (Some 102) (Some 1583065800000) None None = Ok p2)
    by exact H2.
  vm_compute in H1. injection H1 as <-.
  vm_compute in H2. injection H2 as <-.
  match type of Hp1 with _ = Ok ?p1 =>
  match type of Hp2 with _ = Ok ?p2 =>
    destruct (pagination_accumulates Reference.getURLParams Reference.getHostName
                Reference.newDate Examples.recent_endpoint Examples.batch_endpoint
                obj Examples.formatContactForGoogleSheet
                2 None None None None Examples.sheet [] [] [p1; p2])
      as [Hrun _]
  end end.
  - apply visits_next; [exact Hp1 | |].
    + split; [reflexivity|].
      split; [apply vidStopIndex_none | apply timeStopIndex_none];
        vm_compute; reflexivity.
    + apply visits_halt; [exact Hp2|].
      intros [Hmore _]. vm_compute in Hmore. discriminate Hmore.
  - simpl. lia.
  - eexists. eexists. split; [exact Hrun|]. split; vm_compute; reflexivity.
Defined.

(** C9 as stated fails on a contact added in the year 999: the year is
    printed with three digits, so the text is not the zero-padded
    [DD/MM/YYYY - HH:mm] of that date. *)
Lemma addedAt_year_999_is_not_padded :
  exists pg out f,
    fetchPage Reference.getURLParams Reference.getHostName Reference.newDate
      Counterexamples.ancient_endpoint Examples.batch_endpoint
      None None None None = Ok pg /\
    page_formatted pg !! 0%nat = Some out /\
    Reference.newDate (-30610224060000) = Some f /\
    getFullYear f = 999 /\
    out !! "addedAt" = Some (VStr "31/12/999 - 23:59") /\
    out !! "addedAt" <> Some (VStr (render_date f)).
Proof.
  set (r := fetchPage Reference.getURLParams Reference.getHostName Reference.newDate
              Counterexamples.ancient_endpoint Examples.batch_endpoint
              None None None None).
  exists (Counterexamples.page_or_empty r),
         (default ∅ (page_formatted (Counterexamples.page_or_empty r) !! 0%nat)),
         {| getDate := 31; getMonth := 11; getFullYear := 999;
            getHours := 23; getMinutes := 59 |}.
  split; [vm_cast_no_check (eq_refl r)|].
  split.
  { vm_cast_no_check (eq_refl (page_formatted (Counterexamples.page_or_empty r)
                                 !! 0%nat)). }
  split; [vm_compute; reflexivity|].
  split; [reflexivity|].
  split; [vm_compute; reflexivity|].
  vm_compute. discriminate.
Qed.

(** C3 as stated fails on the listing whose first contact has the
    timestamp 0, run without any stop: the first page reports more
    data, no contact has the stop vid and no [timeStop] is set, and the
    next page is there to fetch, yet the loop halts after the first
    page and returns its single contact. *)
Lemma unset_timeStop_halts_at_timestamp_zero :
  exists pg next,
    fetchPage Reference.getURLParams Reference.getHostName Reference.newDate
      Counterexamples.epoch_endpoint Examples.batch_endpoint
      None None None None = Ok pg /\
    continues_as_specified None None pg /\
    fetchPage Reference.getURLParams Reference.getHostName Reference.newDate
      Counterexamples.epoch_endpoint Examples.batch_endpoint
      (Some (vid_offset (page_data pg))) (Some (time_offset (page_data pg)))
      None None = Ok next /\
    map vid (page_new next) = [302] /\
    exists batch,
      loopContacts Reference.getURLParams Reference.getHostName Reference.newDate
        Counterexamples.epoch_endpoint Examples.batch_endpoint obj
        Examples.formatContactForGoogleSheet 3 None None None None Examples.sheet [] []
      = Some ([batch], Some (page_new pg)) /\
      map vid (page_new pg) = [301].
Proof.
  set (r1 := fetchPage Reference.getURLParams Reference.getHostName Reference.newDate
               Counterexamples.epoch_endpoint Examples.batch_endpoint
               None None None None).
  set (r2 := fetchPage Reference.getURLParams Reference.getHostName Reference.newDate
               Counterexamples.epoch_endpoint Examples.batch_endpoint
               (Some 301) (Some 1583065800000) None None).
  exists (Counterexamples.page_or_empty r1), (Counterexamples.page_or_empty r2).
  split; [vm_cast_no_check (eq_refl r1)|]. split.
  { split; [vm_compute; reflexivity|]. split.
    - intros (c & _ & Hc). discriminate Hc.
    - intros (t & c & Ht & _). discriminate Ht. }
  split; [vm_cast_no_check (eq_refl r2)|].
  split; [vm_compute; reflexivity|].
  exists (formatAndAppendToSheet obj Examples.formatContactForGoogleSheet
            (page_formatted (Counterexamples.page_or_empty r1))
            (sheetId Examples.sheet) (range Examples.sheet)).
  split; [|vm_compute; reflexivity].
  vm_cast_no_check
    (eq_refl (loopContacts Reference.getURLParams Reference.getHostName
                Reference.newDate Counterexamples.epoch_endpoint
                Examples.batch_endpoint obj Examples.formatContactForGoogleSheet
                3 None None None None Examples.sheet [] [])).
Qed.

(** C1 on the sample listing with [timeStop] set to the [addedAt] of
    the second contact of the first page and no [vidStop]: the time
    stop is found at index 1 and no vid stop is found, yet both
    contacts of the page are retained, sent to the sheet and returned,
    where the prefix before index 1 holds one. *)
Theorem time_stop_truncation_is_lost :
  let details := [ Examples.detail 101 1583069400000;
                   Examples.detail 102 1583065800000 ] in
  timeStopIndex (Some 1583065800000) details = 1 /\
  vidStopIndex None details = -1 /\
  newContacts None (Some 1583065800000) details = details /\
  exists batch,
    Examples.loopContacts 1 None None None (Some 1583065800000) Examples.sheet [] []
    = Some ([batch], Some details) /\
    length (append_data batch) = 2%nat.
Proof.
  simpl. split; [reflexivity|]. split; [reflexivity|]. split; [reflexivity|].
  eexists. split; vm_compute; reflexivity.
Qed.

(** The precedence example of the specification: a vid stop at index 3
    and a time stop at index 1 retain the first three contacts. *)
Example vid_stop_takes_precedence :
  let details := [ Examples.detail 201 500; Examples.detail 202 400;
                   Examples.detail 203 300; Examples.detail 204 200 ] in
  timeStopIndex (Some 400) details = 1 /\
  vidStopIndex (Some 204) details = 3 /\
  map vid (newContacts (Some 204) (Some 400) details) = [201; 202; 203].
Proof. vm_compute. auto. Qed.

(** ** Further facts about [formatContact] *)

Section MoreFormattingFacts.

Variable getURLParams : jsval -> gmap string string.
Variable getHostName : jsval -> string.
Variable newDate : Z -> option DateFields.

(** The Instagram exception cannot make or unmake the LinkedIn test. *)
Lemma final_source_linkedin props q :
  strict_eq_str (final_source props q) "linkedin"
  = strict_eq_str (get q "utm_source") "linkedin".
Proof.
  unfold final_source.
  destruct (strict_eq_str (get q "utm_source") "facebook") eqn:Hfb; [|done].
  unfold strict_eq_str in Hfb.
  destruct (get q "utm_source") as [| |s| |]; try done.
  apply String.eqb_eq in Hfb as ->.
  by destruct (props !! "hs_analytics_first_referrer") as [pv|];
    [destruct (strict_eq_str (value pv) _)|].
Qed.

Lemma queryParams_all_absent urls :
  (forall u, present u = false -> getURLParams u = ∅) ->
  Forall (fun u => present u = false) urls ->
  queryParams getURLParams urls = ∅.
Proof.
  intros Habsent Hall. unfold queryParams.
  induction Hall as [|u urls Hu _ IH]; simpl; [done|].
  rewrite (Habsent u Hu). unfold spread at 2. by rewrite (left_id_L ∅ (∪)).
Qed.

(** X9: a timestamp the platform cannot read as a date is rendered as
    the text [NaN/NaN/NaN - NaN:NaN]; nothing is thrown. *)
Theorem formattedDate_invalid (t : Z) :
  newDate t = None -> formattedDate newDate t = "NaN/NaN/NaN - NaN:NaN".
Proof. intros Hd. unfold formattedDate. by rewrite Hd. Qed.

(** X10: the keys of a formatted contact are the four base keys,
    together with the five attribution keys exactly when a candidate
    is present, together with [ad] exactly when moreover the merged
    [utm_source] is ["linkedin"] and the contact has the
    [first_conversion_event_name] property. *)
Theorem formatContact_keys (c : ContactDetail) out :
  formatContact getURLParams getHostName newDate c = Ok out ->
  exists fs,
    form_submissions c = Some fs /\
    dom out =
      base_keys ∪
      (if any_candidate (properties c) fs then
         attribution_keys ∪
         (if strict_eq_str
               (get (queryParams getURLParams (landingPageUrls (properties c) fs))
                  "utm_source") "linkedin"
             && bool_decide (is_Some (properties c !! "first_conversion_event_name"))
          then {[ "ad" ]} else ∅)
       else ∅).
Proof.
  unfold formatContact, formatContact_locals.
  destruct (properties c !! "hs_analytics_source") as [pv|]; simpl; [|done].
  destruct (form_submissions c) as [fs|]; simpl; [|done].
  intros Hout. exists fs. split; [done|]. revert Hout.
  destruct (any_candidate _ _); simpl.
  - rewrite final_source_linkedin.
    destruct (strict_eq_str _ "linkedin"); simpl;
      [destruct (properties c !! "first_conversion_event_name"); simpl|];
      intros [= <-]; rewrite !dom_insert_L, dom_empty_L;
      unfold base_keys, attribution_keys; set_solver.
  - intros [= <-]. rewrite !dom_insert_L, dom_empty_L.
    unfold base_keys. set_solver.
Qed.

(** X11: whether the record gets an [ad] field is decided by the
    merged [utm_source] alone: it holds the value of
    [first_conversion_event_name] when a candidate is present and the
    merged [utm_source] is ["linkedin"], and is missing otherwise,
    whatever the first referrer is. *)
Theorem ad_follows_merged_utm_source (c : ContactDetail) out :
  formatContact getURLParams getHostName newDate c = Ok out ->
  exists fs,
    form_submissions c = Some fs /\
    out !! "ad" =
      if any_candidate (properties c) fs &&
         strict_eq_str
           (get (queryParams getURLParams (landingPageUrls (properties c) fs))
              "utm_source") "linkedin"
      then value <$> (properties c !! "first_conversion_event_name")
      else None.
Proof.
  unfold formatContact, formatContact_locals.
  destruct (properties c !! "hs_analytics_source") as [pv|]; simpl; [|done].
  destruct (form_submissions c) as [fs|]; simpl; [|done].
  intros Hout. exists fs. split; [done|]. revert Hout.
  destruct (any_candidate _ _); simpl; [|intros [= <-]; by obj_lookup].
  rewrite final_source_linkedin.
  destruct (strict_eq_str _ "linkedin"); simpl;
    [destruct (properties c !! "first_conversion_event_name"); simpl|];
    intros [= <-]; by obj_lookup.
Qed.

(** X12: the form submissions count only through the page URL of the
    first one: two contacts that differ in their form submissions alone
    are formatted alike when their first submissions have the same
    page URL, a contact without submissions counting as one whose
    first submission has an [undefined] page URL. *)
Theorem formatContact_first_submission_only v props fs fs' t :
  form_submission_page fs = form_submission_page fs' ->
  formatContact getURLParams getHostName newDate
    {| vid := v; properties := props; form_submissions := Some fs; addedAt := t |}
  = formatContact getURLParams getHostName newDate
      {| vid := v; properties := props; form_submissions := Some fs'; addedAt := t |}.
Proof.
  intros Hpage. unfold formatContact, formatContact_locals. simpl.
  destruct (props !! "hs_analytics_source"); simpl; [|done].
  unfold any_candidate, landingPageUrls. by rewrite Hpage.
Qed.

(** X13: a property other than the six that are read can be added to
    or replaced in the contact without changing the formatted contact. *)
Theorem formatContact_ignores_other_properties v props fs t k pv :
  k ∉ read_properties ->
  formatContact getURLParams getHostName newDate
    {| vid := v; properties := <[k := pv]> props; form_submissions := fs;
       addedAt := t |}
  = formatContact getURLParams getHostName newDate
      {| vid := v; properties := props; form_submissions := fs; addedAt := t |}.
Proof.
  unfold read_properties. rewrite !not_elem_of_cons. intros (H1 & H2 & H3 & H4 & H5 & H6 & _).
  unfold formatContact, formatContact_locals, any_candidate, landingPageUrls,
    institution_of, final_source. simpl.
  by rewrite !lookup_insert_ne by done.
Qed.

(** X14: presence is tested on the property, not on its value. A
    contact whose only candidate is a first-touch URL property holding
    [null] or [undefined] still takes the attribution branch, and its
    five attribution fields are all [undefined], given a parser that
    yields the empty mapping for an absent URL. *)
Theorem null_valued_url_takes_attribution_branch (c : ContactDetail) src url :
  (forall u, present u = false -> getURLParams u = ∅) ->
  properties c !! "hs_analytics_source" = Some src ->
  form_submissions c = Some [] ->
  properties c !! "hs_analytics_first_url" = Some url ->
  present (value url) = false ->
  properties c !! "hs_analytics_last_url" = None ->
  properties c !! "hs_analytics_first_referrer" = None ->
  properties c !! "hs_analytics_last_referrer" = None ->
  formatContact getURLParams getHostName newDate c =
    Ok (<["institution" := VUndef]> (<["utm_source" := VUndef]>
       (<["utm_campaign" := VUndef]> (<["hsa_grp" := VUndef]>
       (<["utm_content" := VUndef]>
       (<["analytics_source" := value src]> (minimal_record newDate c))))))).
Proof.
  intros Habsent Hsrc Hfs Hurl Hnull H2 H3 H4.
  assert (Hq : queryParams getURLParams (landingPageUrls (properties c) []) = ∅).
  { apply queryParams_all_absent; [exact Habsent|]. unfold landingPageUrls.
    rewrite Hurl, H2, H3, H4. simpl. by repeat constructor. }
  unfold formatContact, formatContact_locals.
  rewrite Hsrc, Hfs. cbn [mbind result_bind deref fmap result_fmap].
  rewrite Hq. unfold any_candidate, institution_of, final_source.
  rewrite Hurl, H2, H3, H4. simpl. reflexivity.
Qed.

(** X15: the attribution branch never overwrites the base fields:
    whatever the branch, [id] is the contact's vid and [hs_url] the
    contact page of that vid. *)
Theorem formatContact_base_fields (c : ContactDetail) out :
  formatContact getURLParams getHostName newDate c = Ok out ->
  out !! "id" = Some (VNum (vid c)) /\
  out !! "hs_url" =
    Some (VStr ("https://app.hubspot.com/contacts/6331207/contact/" ++ String_ (vid c))).
Proof.
  unfold formatContact, formatContact_locals.
  destruct (properties c !! "hs_analytics_source"); simpl; [|done].
  destruct (form_submissions c); simpl; [|done].
  destruct (any_candidate _ _); simpl; [|intros [= <-]; split; by obj_lookup].
  destruct (strict_eq_str _ "linkedin");
    [destruct (properties c !! "first_conversion_event_name")|];
    intros [= <-]; split; by obj_lookup.
Qed.

End MoreFormattingFacts.

(** ** Further facts about the join and the pagination loop *)

Lemma map_throwing_Throw_inv {A B} (f : A -> result B) xs e :
  map_throwing f xs = Throw e -> exists x e', x ∈ xs /\ f x = Throw e'.
Proof.
  revert e. induction xs as [|x xs IH]; intros e; simpl; [done|].
  destruct (f x) as [y|e0] eqn:Hx; simpl.
  - destruct (map_throwing f xs) as [ys|e1]; simpl; [done|].
    intros _. destruct (IH e1 eq_refl) as (x' & e' & Hin & Hx').
    exists x', e'. split; [by apply list_elem_of_further | done].
  - intros _. exists x, e0. split; [apply list_elem_of_here | done].
Qed.

Lemma map_throwing_Ok_Forall2 {A B} (f : A -> result B) xs ys :
  map_throwing f xs = Ok ys -> Forall2 (fun x y => f x = Ok y) xs ys.
Proof.
  revert ys. induction xs as [|x xs IH]; intros ys; simpl.
  - intros [= <-]. constructor.
  - destruct (f x) as [y|] eqn:Hx; simpl; [|done].
    destruct (map_throwing f xs) as [ys0|]; simpl; [|done].
    intros [= <-]. constructor; [done | by apply IH].
Qed.

Lemma find_summary_None contacts v :
  find (fun s => summary_vid s =? v) contacts = None <-> ~ listed contacts v.
Proof.
  unfold listed. split.
  - intros Hnone (s & Hin & Hv). apply list_elem_of_In in Hin.
    pose proof (find_none _ _ Hnone s Hin) as Hs. simpl in Hs. lia.
  - intros Hno. destruct (find _ contacts) as [s|] eqn:Hfind; [|done].
    destruct (find_some _ _ Hfind) as [Hin Hv%Z.eqb_eq].
    exfalso. apply Hno. exists s. split; [by apply list_elem_of_In | done].
Qed.

(** X6: the join throws exactly when the batch response holds a
    contact whose vid no summary of the page carries. *)
Theorem insertAddedDate_throws_iff contacts raws :
  (exists e, insertAddedDateOnDetailedContacts contacts raws = Throw e) <->
  (exists dc, dc ∈ raws /\ ~ listed contacts (raw_vid dc)).
Proof.
  unfold insertAddedDateOnDetailedContacts. split.
  - intros [e He]. destruct (map_throwing_Throw_inv _ _ _ He) as (dc & e' & Hin & Hdc).
    exists dc. split; [done|]. apply find_summary_None.
    by destruct (find _ contacts).
  - intros (dc & Hin & Hno). apply find_summary_None in Hno.
    eapply (map_throwing_Throw _ _ dc); [done|]. by rewrite Hno.
Qed.

(** X7: when the join succeeds it returns one detail per contact of
    the batch response, in the same order, with the vid, the
    properties and the form submissions unchanged and the [addedAt]
    of a summary of the page that carries the same vid. *)
Theorem insertAddedDate_preserves contacts raws details :
  insertAddedDateOnDetailedContacts contacts raws = Ok details ->
  Forall2 (fun dc d =>
             vid d = raw_vid dc /\
             properties d = raw_properties dc /\
             form_submissions d = raw_form_submissions dc /\
             exists s, s ∈ contacts /\ summary_vid s = raw_vid dc /\
                       addedAt d = summary_addedAt s) raws details.
Proof.
  intros Hjoin. apply map_throwing_Ok_Forall2 in Hjoin.
  eapply Forall2_impl; [exact Hjoin|]. intros dc d Hd. simpl in Hd.
  destruct (find _ contacts) as [s|] eqn:Hfind; simpl in Hd; [|done].
  injection Hd as <-. simpl. repeat (split; [done|]).
  destruct (find_some _ _ Hfind) as [Hin Hv%Z.eqb_eq].
  exists s. split; [by apply list_elem_of_In | done].
Qed.

Lemma newContacts_boundary vidStop timeStop details :
  exists rest,
    details = (newContacts vidStop timeStop details ++ rest)%list /\
    Forall (fun c => vidStop <> Some (vid c)) (newContacts vidStop timeStop details) /\
    match rest with
    | [] => ~ vid_stop_matched vidStop details
    | c :: _ => vidStop = Some (vid c)
    end.
Proof.
  rewrite newContacts_cases.
  destruct (Z.eqb_spec (vidStopIndex vidStop details) (-1)) as [Hnone|Hsome].
  - exists []. rewrite app_nil_r. apply vidStopIndex_none in Hnone as Hno.
    split; [done|]. split; [|done].
    apply Forall_forall. intros c Hin Heq. apply Hno. by exists c.
  - unfold vidStopIndex in *.
    destruct (findIndex_found _ _ Hsome) as (c & Hc & Hp & Hpre & _).
    exists (drop (Z.to_nat (findIndex (vid_stops vidStop) details)) details).
    split; [by rewrite take_drop|]. split.
    + eapply Forall_impl; [exact Hpre|]. intros x Hx ->. simpl in Hx. lia.
    + rewrite (drop_S _ c _ Hc). destruct vidStop as [v|]; simpl in Hp; [|done].
      apply Z.eqb_eq in Hp. by rewrite Hp.
Qed.

(** X1: the retained contacts are a prefix of the page, none of them
    has the stop vid, and what follows the prefix starts with the
    contact that has it; when no contact of the page has the stop vid
    the whole page is retained. *)
Theorem newContacts_stops_before_vidStop vidStop timeStop details :
  exists rest,
    details = (newContacts vidStop timeStop details ++ rest)%list /\
    Forall (fun c => vidStop <> Some (vid c)) (newContacts vidStop timeStop details) /\
    match rest with
    | [] => ~ vid_stop_matched vidStop details
    | c :: _ => vidStop = Some (vid c)
    end.
Proof. apply newContacts_boundary. Qed.

Section MorePaginationFacts.

Variable getURLParams : jsval -> gmap string string.
Variable getHostName : jsval -> string.
Variable newDate : Z -> option DateFields.
Variable recent_endpoint : option Z -> option Z -> option ContactsData.
Variable batch_endpoint : list Z -> option (list RawDetail).
Variable Row : Type.
Variable formatContactForGoogleSheet : obj -> Row.

(** X8: [getContactsDetailedInfo] yields [undefined] exactly when the
    batch request is rejected or its response holds a contact the page
    did not list. *)
Theorem getContactsDetailedInfo_undefined_iff contacts :
  getContactsDetailedInfo batch_endpoint contacts = None <->
  batch_endpoint (map summary_vid contacts) = None \/
  exists raws dc, batch_endpoint (map summary_vid contacts) = Some raws /\
                  dc ∈ raws /\ ~ listed contacts (raw_vid dc).
Proof.
  unfold getContactsDetailedInfo.
  destruct (batch_endpoint _) as [raws|]; simpl; [|split; [by left | done]].
  pose proof (insertAddedDate_throws_iff contacts raws) as Hiff.
  destruct (insertAddedDateOnDetailedContacts contacts raws) as [details|e]; simpl.
  - split; [done|]. intros [|(raws' & dc & [= <-] & Hin & Hno)]; [done|].
    destruct (proj2 Hiff) as [e He]; [by exists dc | done].
  - split; [|done]. intros _. right.
    destruct (proj1 Hiff) as (dc & Hin & Hno); [by exists e|].
    by exists raws, dc.
Qed.

Lemma loopContacts_extends fuel vidOffset timeOffset vidStop timeStop sheet
    (acc : list ContactDetail) (log : list (SheetAppend Row)) log' r :
  loopContacts getURLParams getHostName newDate recent_endpoint batch_endpoint
    Row formatContactForGoogleSheet fuel vidOffset timeOffset vidStop timeStop
    sheet acc log = Some (log', r) ->
  exists batches,
    log' = (log ++ batches)%list /\
    Forall (fun b => append_sheetId b = sheetId sheet /\
                     append_range b = default "Página1" (range sheet)) batches /\
    forall result, r = Some result ->
      exists new,
        result = (acc ++ new)%list /\
        length new = sum_list (map (fun b => length (append_data b)) batches) /\
        Forall (fun c => vidStop <> Some (vid c)) new.
Proof.
  revert vidOffset timeOffset acc log log' r.
  induction fuel as [|fuel IH]; intros vo to acc log log' r; simpl; [done|].
  destruct (fetchPage _ _ _ _ _ vo to vidStop timeStop) as [pg|e] eqn:Hpage.
  2: { intros [= <- <-]. exists []. rewrite app_nil_r. by repeat split. }
  destruct (fetchPage_Ok _ _ _ _ _ _ _ _ _ _ Hpage) as (raws & _ & _ & _ & Hnew & Hrows).
  apply map_throwing_Ok_length in Hrows.
  assert (Hvid : Forall (fun c => vidStop <> Some (vid c)) (page_new pg)).
  { rewrite Hnew.
    by destruct (newContacts_boundary vidStop timeStop (page_detailed pg))
      as (rest & _ & Hall & _). }
  set (b := formatAndAppendToSheet Row formatContactForGoogleSheet
              (page_formatted pg) (sheetId sheet) (range sheet)).
  assert (Hb : length (append_data b) = length (page_new pg)).
  { unfold b. simpl. by rewrite length_map. }
  assert (Hmeta : append_sheetId b = sheetId sheet /\
                  append_range b = default "Página1" (range sheet)) by done.
  clearbody b.
  destruct (keep_looping _ _ _ _).
  - intros Hrec. destruct (IH _ _ _ _ _ _ Hrec) as (batches & -> & Hall & Hres).
    exists (b :: batches). split; [by rewrite <- app_assoc|].
    split; [by constructor|].
    intros result Hr. destruct (Hres result Hr) as (new & -> & Hlen & Hnone).
    exists (page_new pg ++ new)%list. split; [by rewrite <- app_assoc|].
    split; [simpl; rewrite length_app; lia | by apply Forall_app].
  - intros [= <- <-]. exists [b]. split; [done|].
    split; [constructor; [done | constructor]|].
    intros result [= <-]. exists (page_new pg). split; [done|].
    split; [simpl; lia | done].
Qed.

(** X2: no contact that a run adds to the accumulator has the stop
    vid: the boundary contact is never returned. *)
Theorem loopContacts_never_returns_vidStop fuel vidOffset timeOffset v timeStop sheet
    (log : list (SheetAppend Row)) log' result :
  loopContacts getURLParams getHostName newDate recent_endpoint batch_endpoint
    Row formatContactForGoogleSheet fuel vidOffset timeOffset (Some v) timeStop
    sheet [] log = Some (log', Some result) ->
  Forall (fun c => vid c <> v) result.
Proof.
  intros Hrun.
  destruct (loopContacts_extends _ _ _ _ _ _ _ _ _ _ Hrun) as (batches & _ & _ & Hres).
  destruct (Hres result eq_refl) as (new & -> & _ & Hnone). simpl.
  eapply Forall_impl; [exact Hnone|]. intros c Hc Heq. apply Hc. by rewrite Heq.
Qed.

(** X3: a run only appends to the sheet, every batch going to the
    given sheet id and range, the range being ["Página1"] when none is
    given; and when it returns contacts, these are the incoming
    accumulator followed by as many contacts as rows were appended. *)
Theorem loopContacts_rows_match_contacts fuel vidOffset timeOffset vidStop timeStop
    sheet (acc : list ContactDetail) (log : list (SheetAppend Row)) log' result :
  loopContacts getURLParams getHostName newDate recent_endpoint batch_endpoint
    Row formatContactForGoogleSheet fuel vidOffset timeOffset vidStop timeStop
    sheet acc log = Some (log', Some result) ->
  exists batches new,
    log' = (log ++ batches)%list /\
    result = (acc ++ new)%list /\
    Forall (fun b => append_sheetId b = sheetId sheet /\
                     append_range b = default "Página1" (range sheet)) batches /\
    length new = sum_list (map (fun b => length (append_data b)) batches).
Proof.
  intros Hrun.
  destruct (loopContacts_extends _ _ _ _ _ _ _ _ _ _ Hrun) as (batches & -> & Hall & Hres).
  destruct (Hres result eq_refl) as (new & -> & Hlen & _).
  by exists batches, new.
Qed.

(** X4: when the first page is processed and continues but the next
    one cannot be fetched or formatted, the run yields [undefined]
    while the batch of the first page stays appended to the sheet. *)
Theorem loopContacts_failure_keeps_sheet fuel vidOffset timeOffset vidStop timeStop
    sheet (acc : list ContactDetail) (log : list (SheetAppend Row)) pg e :
  fetchPage getURLParams getHostName newDate recent_endpoint batch_endpoint
    vidOffset timeOffset vidStop timeStop = Ok pg ->
  continues vidStop timeStop pg ->
  fetchPage getURLParams getHostName newDate recent_endpoint batch_endpoint
    (Some (vid_offset (page_data pg))) (Some (time_offset (page_data pg)))
    vidStop timeStop = Throw e ->
  loopContacts getURLParams getHostName newDate recent_endpoint batch_endpoint
    Row formatContactForGoogleSheet (S (S fuel)) vidOffset timeOffset vidStop timeStop
    sheet acc log
  = Some ((log ++ [formatAndAppendToSheet Row formatContactForGoogleSheet
                     (page_formatted pg) (sheetId sheet) (range sheet)])%list,
          None).
Proof.
  intros Hpage Hcont Hnext. apply keep_looping_continues in Hcont.
  cbn [loopContacts]. rewrite Hpage, Hcont. cbn [loopContacts]. by rewrite Hnext.
Qed.

End MorePaginationFacts.

(** ** Further facts about [getDealsFromContact] *)

Lemma find_throwing_Some {A} (p : A -> result bool) xs x :
  find_throwing p xs = Ok (Some x) -> x ∈ xs /\ p x = Ok true.
Proof.
  induction xs as [|y ys IH]; simpl; [done|].
  destruct (p y) as [[|]|] eqn:Hy; simpl; [| |done].
  - intros [= <-]. split; [apply list_elem_of_here | done].
  - intros H. destruct (IH H). split; [by apply list_elem_of_further | done].
Qed.

Lemma matches_property_true d name id :
  matches_property d name id = Ok true ->
  exists pv, deal_properties d !! name = Some pv /\ value pv = VStr id.
Proof.
  unfold matches_property. destruct (deal_properties d !! name) as [pv|]; simpl; [|done].
  intros [= H]. exists pv. split; [done|].
  destruct (value pv) as [| |s| |]; simpl in H; try done.
  by apply String.eqb_eq in H as ->.
Qed.

Section MoreDealFacts.

Variable associations_endpoint : Z -> option (list Z).
Variable pipelines_endpoint : option (list PipelineDetail).
Variable deal_endpoint : Z -> option RawDeal.

Lemma resolveDeal_Ok catalog id dl :
  resolveDeal deal_endpoint catalog id = Ok dl ->
  deal_endpoint id = Some (deal dl) /\
  pipeline dl ∈ catalog /\
  (exists pv, deal_properties (deal dl) !! "pipeline" = Some pv /\
              value pv = VStr (pipelineId (pipeline dl))) /\
  (forall s, stage dl = Some s ->
             s ∈ stages (pipeline dl) /\
             exists sv, deal_properties (deal dl) !! "dealstage" = Some sv /\
                        value sv = VStr (stageId s)).
Proof.
  unfold resolveDeal, getDeal.
  destruct (deal_endpoint id) as [d|]; simpl; [|done].
  destruct (find_throwing _ catalog) as [[p|]|] eqn:Hp; simpl; [| done | done].
  destruct (find_throwing _ (stages p)) as [s|] eqn:Hs; simpl; [|done].
  intros [= <-]. simpl.
  destruct (find_throwing_Some _ _ _ Hp) as [Hin Hm].
  split; [done|]. split; [done|]. split; [by apply matches_property_true|].
  intros s' ->. destruct (find_throwing_Some _ _ _ Hs) as [Hin' Hm'].
  split; [done | by apply matches_property_true].
Qed.

(** X16: whatever [getDealsFromContact] returns is one deal per
    associated id, in association order, each being the fetched deal of
    that id, joined to a catalog pipeline whose id is the deal's
    [pipeline] property and, when its stage is defined, to a stage of
    that pipeline whose id is the deal's [dealstage] property. *)
Theorem getDealsFromContact_sound contactId deals :
  getDealsFromContact associations_endpoint pipelines_endpoint deal_endpoint contactId
  = Some deals ->
  exists ids catalog,
    associations_endpoint contactId = Some ids /\
    pipelines_endpoint = Some catalog /\
    Forall2 (fun id dl =>
               deal_endpoint id = Some (deal dl) /\
               pipeline dl ∈ catalog /\
               (exists pv, deal_properties (deal dl) !! "pipeline" = Some pv /\
                           value pv = VStr (pipelineId (pipeline dl))) /\
               (forall s, stage dl = Some s ->
                          s ∈ stages (pipeline dl) /\
                          exists sv, deal_properties (deal dl) !! "dealstage" = Some sv /\
                                     value sv = VStr (stageId s))) ids deals.
Proof.
  unfold getDealsFromContact, getDealIdsFromContact, getAllPipelines.
  destruct (associations_endpoint contactId) as [ids|]; simpl; [|done].
  destruct pipelines_endpoint as [catalog|]; simpl; [|done].
  destruct (map_throwing _ ids) as [ds|] eqn:Hmap; simpl; [|done].
  intros [= <-]. exists ids, catalog. split; [done|]. split; [done|].
  apply map_throwing_Ok_Forall2 in Hmap.
  eapply Forall2_impl; [exact Hmap|]. intros id dl. apply resolveDeal_Ok.
Qed.

(** X17: the result is all or nothing: a rejected association or
    catalog request, or one associated deal that cannot be fetched,
    leaves the caller with [undefined], whatever the other deals are. *)
Theorem getDealsFromContact_all_or_nothing contactId :
  associations_endpoint contactId = None \/
  pipelines_endpoint = None \/
  (exists ids id, associations_endpoint contactId = Some ids /\ id ∈ ids /\
                  deal_endpoint id = None) ->
  getDealsFromContact associations_endpoint pipelines_endpoint deal_endpoint contactId
  = None.
Proof.
  unfold getDealsFromContact, getDealIdsFromContact, getAllPipelines.
  intros [-> | [-> | (ids & id & -> & Hin & Hdeal)]]; simpl; [done | |].
  - by destruct (associations_endpoint contactId).
  - destruct pipelines_endpoint as [catalog|]; simpl; [|done].
    assert (Hthrow : resolveDeal deal_endpoint catalog id = Throw (TypeError "deal")).
    { unfold resolveDeal, getDeal. by rewrite Hdeal. }
    by destruct (map_throwing_Throw _ _ _ _ Hin Hthrow) as [e' ->].
Qed.

(** X18: a deal without a [dealstage] property is joined with an
    [undefined] stage when its pipeline has no stages, and makes the
    resolution throw as soon as the pipeline has one. *)
Theorem resolveDeal_without_dealstage catalog id d p :
  deal_endpoint id = Some d ->
  lookup_pipeline catalog d = Some p ->
  deal_properties d !! "dealstage" = None ->
  resolveDeal deal_endpoint catalog id =
    match stages p with
    | [] => Ok {| deal := d; pipeline := p; stage := None |}
    | _ :: _ => Throw (TypeError "dealstage")
    end.
Proof.
  unfold resolveDeal, getDeal, lookup_pipeline. intros -> Hp Hnone. simpl.
  destruct (deal_properties d !! "pipeline") as [pv|] eqn:Hpv; simpl in Hp; [|done].
  rewrite (find_throwing_property d "pipeline" pv pipelineId catalog Hpv), Hp. simpl.
  destruct (stages p) as [|s ss]; simpl; [done|].
  unfold matches_property. by rewrite Hnone.
Qed.

End MoreDealFacts.

(** ** The further facts on the samples *)

Lemma formattedDate_invalid_witness :
  formattedDate Reference.newDate 9000000000000000 = "NaN/NaN/NaN - NaN:NaN".
Proof.
  apply (formattedDate_invalid Reference.newDate 9000000000000000).
  vm_compute. reflexivity.
Defined.

Lemma formatContact_keys_witness :
  exists out,
    formatContact Reference.getURLParams Reference.getHostName Reference.newDate
      Examples.linkedin_contact = Ok out /\
    dom out = base_keys ∪ (attribution_keys ∪ {[ "ad" ]}).
Proof.
  assert (Hex : exists out,
            formatContact Reference.getURLParams Reference.getHostName
              Reference.newDate Examples.linkedin_contact = Ok out).
  { exists (match formatContact Reference.getURLParams Reference.getHostName
                    Reference.newDate Examples.linkedin_contact with
            | Ok o => o
            | Throw _ => ∅
            end).
    vm_cast_no_check (eq_refl (formatContact Reference.getURLParams
                                 Reference.getHostName Reference.newDate
                                 Examples.linkedin_contact)). }
  destruct Hex as [out Hout]. exists out. split; [exact Hout|].
  destruct (formatContact_keys Reference.getURLParams Reference.getHostName
              Reference.newDate Examples.linkedin_contact out Hout)
    as (fs & Hfs & Hdom).
  injection Hfs as <-. rewrite Hdom. vm_compute. reflexivity.
Defined.

Lemma ad_follows_merged_utm_source_witness :
  exists out,
    formatContact Reference.getURLParams Reference.getHostName Reference.newDate
      Examples.instagram_contact = Ok out /\
    out !! "ad" = None.
Proof.
  assert (Hex : exists out,
            formatContact Reference.getURLParams Reference.getHostName
              Reference.newDate Examples.instagram_contact = Ok out).
  { exists (match formatContact Reference.getURLParams Reference.getHostName
                    Reference.newDate Examples.instagram_contact with
            | Ok o => o
            | Throw _ => ∅
            end).
    vm_cast_no_check (eq_refl (formatContact Reference.getURLParams
                                 Reference.getHostName Reference.newDate
                                 Examples.instagram_contact)). }
  destruct Hex as [out Hout]. exists out. split; [exact Hout|].
  destruct (ad_follows_merged_utm_source Reference.getURLParams Reference.getHostName
              Reference.newDate Examples.instagram_contact out Hout)
    as (fs & Hfs & Had).
  injection Hfs as <-. rewrite Had. vm_compute. reflexivity.
Defined.

Lemma formatContact_first_submission_only_witness :
  formatContact Reference.getURLParams Reference.getHostName Reference.newDate
    {| vid := 44; properties := properties Examples.espm_contact;
       form_submissions :=
         Some [ {| page_url := VStr "https://gestaopublica.fecap.br/form" |};
                {| page_url := VStr "https://cursopos.com/?utm_source=late" |} ];
       addedAt := 1583069400000 |}
  = formatContact Reference.getURLParams Reference.getHostName Reference.newDate
      {| vid := 44; properties := properties Examples.espm_contact;
         form_submissions :=
           Some [ {| page_url := VStr "https://gestaopublica.fecap.br/form" |} ];
         addedAt := 1583069400000 |}.
Proof.
  apply (formatContact_first_submission_only Reference.getURLParams
           Reference.getHostName Reference.newDate 44
           (properties Examples.espm_contact)).
  reflexivity.
Defined.

Lemma formatContact_ignores_other_properties_witness :
  formatContact Reference.getURLParams Reference.getHostName Reference.newDate
    {| vid := 44;
       properties := <["lifecyclestage" := {| value := VStr "lead" |}]>
                       (properties Examples.espm_contact);
       form_submissions := form_submissions Examples.espm_contact;
       addedAt := 1583069400000 |}
  = formatContact Reference.getURLParams Reference.getHostName Reference.newDate
      {| vid := 44;
         properties := properties Examples.espm_contact;
         form_submissions := form_submissions Examples.espm_contact;
         addedAt := 1583069400000 |}.
Proof.
  apply (formatContact_ignores_other_properties Reference.getURLParams
           Reference.getHostName Reference.newDate 44
           (properties Examples.espm_contact)
           (form_submissions Examples.espm_contact) 1583069400000
           "lifecyclestage" {| value := VStr "lead" |}).
  unfold read_properties. rewrite !not_elem_of_cons.
  repeat (split; [discriminate|]). apply not_elem_of_nil.
Defined.

Lemma null_valued_url_takes_attribution_branch_witness :
  exists out,
    formatContact Reference.getURLParams Reference.getHostName Reference.newDate
      MoreExamples.null_url_contact = Ok out /\
    out !! "utm_source" = Some VUndef /\
    out !! "institution" = Some VUndef.
Proof.
  eexists. split.
  - apply (null_valued_url_takes_attribution_branch Reference.getURLParams
             Reference.getHostName Reference.newDate MoreExamples.null_url_contact
             {| value := VStr "OFFLINE" |} {| value := VNull |});
      [exact Reference_getURLParams_absent | vm_compute; reflexivity ..].
  - split; vm_compute; reflexivity.
Defined.

Lemma formatContact_base_fields_witness :
  exists out,
    formatContact Reference.getURLParams Reference.getHostName Reference.newDate
      Examples.espm_contact = Ok out /\
    out !! "id" = Some (VNum 44) /\
    out !! "hs_url" = Some (VStr "https://app.hubspot.com/contacts/6331207/contact/44").
Proof.
  assert (Hex : exists out,
            formatContact Reference.getURLParams Reference.getHostName
              Reference.newDate Examples.espm_contact = Ok out).
  { exists (match formatContact Reference.getURLParams Reference.getHostName
                    Reference.newDate Examples.espm_contact with
            | Ok o => o
            | Throw _ => ∅
            end).
    vm_cast_no_check (eq_refl (formatContact Reference.getURLParams
                                 Reference.getHostName Reference.newDate
                                 Examples.espm_contact)). }
  destruct Hex as [out Hout]. exists out. split; [exact Hout|].
  exact (formatContact_base_fields Reference.getURLParams Reference.getHostName
           Reference.newDate Examples.espm_contact out Hout).
Defined.

Lemma insertAddedDate_throws_iff_witness :
  exists e,
    insertAddedDateOnDetailedContacts (contacts Examples.page1)
      (map Examples.raw_detail [101; 102; 999]) = Throw e.
Proof.
  apply (insertAddedDate_throws_iff (contacts Examples.page1)
           (map Examples.raw_detail [101; 102; 999])).
  exists (Examples.raw_detail 999). split.
  - simpl. rewrite !elem_of_cons. auto.
  - intros (s & Hin & Hv). simpl in Hin, Hv.
    rewrite !elem_of_cons, elem_of_nil in Hin.
    destruct Hin as [-> | [-> | []]]; discriminate Hv.
Defined.

Lemma insertAddedDate_preserves_witness :
  exists details,
    insertAddedDateOnDetailedContacts (contacts Examples.page1)
      (map Examples.raw_detail [101; 102]) = Ok details /\
    map addedAt details = [1583069400000; 1583065800000] /\
    Forall2 (fun dc d => vid d = raw_vid dc /\ properties d = raw_properties dc)
      (map Examples.raw_detail [101; 102]) details.
Proof.
  assert (Hex : exists details,
            insertAddedDateOnDetailedContacts (contacts Examples.page1)
              (map Examples.raw_detail [101; 102]) = Ok details /\
            map addedAt details = [1583069400000; 1583065800000]).
  { exists (match insertAddedDateOnDetailedContacts (contacts Examples.page1)
                    (map Examples.raw_detail [101; 102]) with
            | Ok ds => ds
            | Throw _ => []
            end).
    split; [|vm_compute; reflexivity].
    vm_cast_no_check (eq_refl (insertAddedDateOnDetailedContacts
                                 (contacts Examples.page1)
                                 (map Examples.raw_detail [101; 102]))). }
  destruct Hex as (details & Hjoin & Htimes).
  exists details. split; [exact Hjoin|]. split; [exact Htimes|].
  eapply Forall2_impl; [exact (insertAddedDate_preserves _ _ _ Hjoin)|].
  intros dc d (Hv & Hp & _). by split.
Defined.

Lemma getContactsDetailedInfo_undefined_iff_witness :
  getContactsDetailedInfo MoreExamples.stray_batch_endpoint (contacts Examples.page1)
  = None.
Proof.
  apply (getContactsDetailedInfo_undefined_iff MoreExamples.stray_batch_endpoint
           (contacts Examples.page1)).
  right. exists (map Examples.raw_detail [101; 102; 999]), (Examples.raw_detail 999).
  split; [reflexivity|]. split.
  - simpl. rewrite !elem_of_cons. auto.
  - intros (s & Hin & Hv). simpl in Hin, Hv.
    rewrite !elem_of_cons, elem_of_nil in Hin.
    destruct Hin as [-> | [-> | []]]; discriminate Hv.
Defined.

Lemma loopContacts_never_returns_vidStop_witness :
  exists log result,
    Examples.loopContacts 2 None None (Some 104) None Examples.sheet [] []
    = Some (log, Some result) /\
    map vid result = [101; 102; 103] /\
    Forall (fun c => vid c <> 104) result.
Proof.
  assert (Hex : exists log result,
            Examples.loopContacts 2 None None (Some 104) None Examples.sheet [] []
            = Some (log, Some result) /\
            map vid result = [101; 102; 103]).
  { exists (match Examples.loopContacts 2 None None (Some 104) None
                    Examples.sheet [] [] with
            | Some (l, _) => l
            | None => []
            end),
           (match Examples.loopContacts 2 None None (Some 104) None
                    Examples.sheet [] [] with
            | Some (_, Some cs) => cs
            | _ => []
            end).
    split; [|vm_compute; reflexivity].
    vm_cast_no_check (eq_refl (Examples.loopContacts 2 None None (Some 104) None
                                 Examples.sheet [] [])). }
  destruct Hex as (log & result & Hrun & Hvids).
  exists log, result. split; [exact Hrun|]. split; [exact Hvids|].
  exact (loopContacts_never_returns_vidStop Reference.getURLParams
           Reference.getHostName Reference.newDate Examples.recent_endpoint
           Examples.batch_endpoint obj Examples.formatContactForGoogleSheet
           2 None None 104 None Examples.sheet [] log result Hrun).
Defined.

Lemma loopContacts_rows_match_contacts_witness :
  exists log result,
    Examples.loopContacts 2 None None None None Examples.sheet [] []
    = Some (log, Some result) /\
    Forall (fun b => append_sheetId b = "sheet-1" /\ append_range b = "Página1") log /\
    length result = sum_list (map (fun b => length (append_data b)) log).
Proof.
  assert (Hex : exists log result,
            Examples.loopContacts 2 None None None None Examples.sheet [] []
            = Some (log, Some result)).
  { exists (match Examples.loopContacts 2 None None None None
                    Examples.sheet [] [] with
            | Some (l, _) => l
            | None => []
            end),
           (match Examples.loopContacts 2 None None None None
                    Examples.sheet [] [] with
            | Some (_, Some cs) => cs
            | _ => []
            end).
    vm_cast_no_check (eq_refl (Examples.loopContacts 2 None None None None
                                 Examples.sheet [] [])). }
  destruct Hex as (log & result & Hrun).
  destruct (loopContacts_rows_match_contacts Reference.getURLParams
              Reference.getHostName Reference.newDate Examples.recent_endpoint
              Examples.batch_endpoint obj Examples.formatContactForGoogleSheet
              2 None None None None Examples.sheet [] [] log result Hrun)
    as (batches & new & Hlog & Hres & Hall & Hlen).
  simpl in Hlog, Hres. rewrite <- Hlog in Hall, Hlen. rewrite <- Hres in Hlen.
  exists log, result. split; [exact Hrun|]. split; [exact Hall | exact Hlen].
Defined.

Lemma loopContacts_failure_keeps_sheet_witness :
  exists batch,
    loopContacts Reference.getURLParams Reference.getHostName Reference.newDate
      MoreExamples.failing_endpoint Examples.batch_endpoint obj
      Examples.formatContactForGoogleSheet 2 None None None None Examples.sheet [] []
    = Some ([batch], None) /\
    length (append_data batch) = 2%nat.
Proof.
  assert (Hex : exists pg,
            fetchPage Reference.getURLParams Reference.getHostName Reference.newDate
              MoreExamples.failing_endpoint Examples.batch_endpoint None None None None = Ok pg /\
            has_more (page_data pg) = true /\
            timeStopIndex None (page_detailed pg) = -1 /\
            vid_offset (page_data pg) = 102 /\
            time_offset (page_data pg) = 1583065800000 /\
            length (page_formatted pg) = 2%nat).
  { exists (match fetchPage Reference.getURLParams Reference.getHostName
                    Reference.newDate MoreExamples.failing_endpoint Examples.batch_endpoint
                    None None None None with
            | Ok p => p
            | Throw _ => {| page_data := Examples.page2; page_detailed := [];
                            page_new := []; page_formatted := [] |}
            end).
    split; [|repeat split; vm_compute; reflexivity].
    vm_cast_no_check (eq_refl (fetchPage Reference.getURLParams Reference.getHostName
                                 Reference.newDate MoreExamples.failing_endpoint
                                 Examples.batch_endpoint None None None None)). }
  destruct Hex as (pg & Hpg & Hmore & Htime & Hvo & Hto & Hrows).
  exists (formatAndAppendToSheet obj Examples.formatContactForGoogleSheet
            (page_formatted pg) (sheetId Examples.sheet) (range Examples.sheet)).
  split.
  - apply (loopContacts_failure_keeps_sheet Reference.getURLParams
             Reference.getHostName Reference.newDate MoreExamples.failing_endpoint
             Examples.batch_endpoint obj Examples.formatContactForGoogleSheet
             0 None None None None Examples.sheet [] [] pg (TypeError "contactsData")
             Hpg).
    + split; [exact Hmore|]. split; [|by apply timeStopIndex_none].
      intros (c & _ & Hc). discriminate Hc.
    + rewrite Hvo, Hto. vm_compute. reflexivity.
  - simpl. by rewrite length_map.
Defined.

Lemma getDealsFromContact_sound_witness :
  exists deals,
    Examples.getDealsFromContact 1 = Some deals /\
    map (fun dl => stageId <$> stage dl) deals
    = [Some "closedwon"; Some "appointmentscheduled"] /\
    Forall2 (fun id dl => Examples.deal_endpoint id = Some (deal dl) /\
                          pipeline dl ∈ Examples.catalog) [10; 11] deals.
Proof.
  assert (Hex : exists deals,
            Examples.getDealsFromContact 1 = Some deals /\
            map (fun dl => stageId <$> stage dl) deals
            = [Some "closedwon"; Some "appointmentscheduled"]).
  { exists (default [] (Examples.getDealsFromContact 1)).
    split; vm_compute; reflexivity. }
  destruct Hex as (deals & Hdeals & Hstages).
  exists deals. split; [exact Hdeals|]. split; [exact Hstages|].
  destruct (getDealsFromContact_sound Examples.associations_endpoint
              (Some Examples.catalog) Examples.deal_endpoint 1 deals Hdeals)
    as (ids & catalog & Hids & Hcat & Hall).
  injection Hids as <-. injection Hcat as <-.
  eapply Forall2_impl; [exact Hall|]. intros id dl (Hd & Hp & _). by split.
Defined.

Lemma getDealsFromContact_all_or_nothing_witness :
  getDealsFromContact MoreExamples.associations_endpoint (Some MoreExamples.catalog)
    MoreExamples.deal_endpoint 5 = None.
Proof.
  apply (getDealsFromContact_all_or_nothing MoreExamples.associations_endpoint
           (Some MoreExamples.catalog) MoreExamples.deal_endpoint 5).
  right. right. exists [10; 99], 99.
  split; [reflexivity|]. split; [rewrite !elem_of_cons; auto | reflexivity].
Defined.

Lemma resolveDeal_without_dealstage_witness :
  resolveDeal MoreExamples.deal_endpoint MoreExamples.catalog 15
  = Ok {| deal := MoreExamples.deal_without_stage 15 "empty";
          pipeline := {| pipelineId := "empty"; stages := [] |};
          stage := None |} /\
  resolveDeal MoreExamples.deal_endpoint MoreExamples.catalog 14
  = Throw (TypeError "dealstage").
Proof.
  split.
  - apply (resolveDeal_without_dealstage MoreExamples.deal_endpoint
             MoreExamples.catalog 15 (MoreExamples.deal_without_stage 15 "empty")
             {| pipelineId := "empty"; stages := [] |});
      vm_compute; reflexivity.
  - apply (resolveDeal_without_dealstage MoreExamples.deal_endpoint
             MoreExamples.catalog 14 (MoreExamples.deal_without_stage 14 "default")
             (hd {| pipelineId := ""; stages := [] |} Examples.catalog));
      vm_compute; reflexivity.
Defined.
